(** * Reddit/Discord account linking: the OAuth callback and the linking endpoint

    A shallow embedding of [src/web/routes/redditAuth.js] and
    [src/web/routes/verification.js].

    - JavaScript values are a small dynamic [value] type; numbers are the
      integral fragment of JS numbers (safe integers, on which double
      arithmetic is exact) plus [NaN].
    - Strings are byte strings: a [string] is the UTF-8 encoding of the
      JavaScript string it stands for.
    - Handlers are written in a state-and-exception monad [M] over a [world]
      (the request's session, the [redditAccounts] collection and the trace of
      calls made on external objects).  Effects that happened before an
      exception is thrown stay in the world, as in JavaScript.
    - Everything the handlers receive from outside (provider responses, the
      clock, storage faults, the random source) comes from an [Env] record. *)

From Stdlib Require Import String Ascii ZArith List Bool Lia.
Import ListNotations.
Local Open Scope string_scope.
Local Open Scope Z_scope.

(* ===================================================================== *)
(** ** JavaScript values *)
(* ===================================================================== *)

Module JS.

(** Numbers: integers, or NaN. *)
Inductive num : Type :=
| Num (z : Z)
| NaN.

#[local] Set Warnings "-register-all".
Inductive value : Type :=
| VUndefined
| VNull
| VBool (b : bool)
| VNum (n : num)
| VStr (s : string)
| VDate (t : num)                       (* a Date with time value [t], in ms *)
| VArr (l : list value)
| VObj (fields : list (string * value)).

(** ToBoolean. *)
Definition truthy (v : value) : bool :=
  match v with
  | VUndefined | VNull => false
  | VBool b => b
  | VNum (Num z) => negb (z =? 0)
  | VNum NaN => false
  | VStr s => negb (s =? "")%string
  | VDate _ | VArr _ | VObj _ => true
  end.

(** Own-property lookup in an object's property list. *)
Fixpoint lookup (k : string) (fields : list (string * value)) : value :=
  match fields with
  | [] => VUndefined
  | (k', v) :: rest => if (k =? k')%string then v else lookup k rest
  end.

(** Does the object's property list have the key at all? *)
Fixpoint has_key (k : string) (fields : list (string * value)) : bool :=
  match fields with
  | [] => false
  | (k', _) :: rest => (k =? k')%string || has_key k rest
  end.

(** [v.k] for the property names the handlers read (none of them is a
    prototype property of a primitive, an array or a Date): [None] is the
    TypeError of reading a property of [undefined] or [null]. *)
Definition get_prop (v : value) (k : string) : option value :=
  match v with
  | VUndefined | VNull => None
  | VObj fields => Some (lookup k fields)
  | _ => Some VUndefined
  end.

Definition num_mul (a b : num) : num :=
  match a, b with
  | Num x, Num y => Num (x * y)
  | _, _ => NaN
  end.

Definition num_add (a b : num) : num :=
  match a, b with
  | Num x, Num y => Num (x + y)
  | _, _ => NaN
  end.

Definition num_eqb (a b : num) : bool :=
  match a, b with
  | Num x, Num y => x =? y
  | NaN, NaN => true
  | _, _ => false
  end.

(** TimeClip of the Date constructor: a time value beyond 8.64e15 ms from
    the epoch is an Invalid Date. *)
Definition max_time : Z := 8640000000000000.

Definition time_clip (t : num) : num :=
  match t with
  | Num z => if Z.abs z <=? max_time then Num z else NaN
  | NaN => NaN
  end.

(** Structural equality of values, used by the storage model to match a
    stored document against a query. *)
Fixpoint value_eqb (a b : value) {struct a} : bool :=
  match a, b with
  | VUndefined, VUndefined => true
  | VNull, VNull => true
  | VBool x, VBool y => Bool.eqb x y
  | VNum x, VNum y => num_eqb x y
  | VStr x, VStr y => (x =? y)%string
  | VDate x, VDate y => num_eqb x y
  | VArr l, VArr m =>
      (fix go (l m : list value) {struct l} : bool :=
         match l, m with
         | [], [] => true
         | x :: l', y :: m' => value_eqb x y && go l' m'
         | _, _ => false
         end) l m
  | VObj f, VObj g =>
      (fix go (f g : list (string * value)) {struct f} : bool :=
         match f, g with
         | [], [] => true
         | (k, x) :: f', (k', y) :: g' =>
             (k =? k')%string && value_eqb x y && go f' g'
         | _, _ => false
         end) f g
  | _, _ => false
  end.

End JS.
Import JS.

(* ===================================================================== *)
(** ** Query parameters *)
(* ===================================================================== *)

(** What the router's query parser yields for one parameter: nothing, a
    string, or an array of strings when the parameter is repeated. *)
Inductive qval : Type :=
| QAbsent
| QStr (s : string)
| QArr (l : list string).

Definition qval_to_value (q : qval) : value :=
  match q with
  | QAbsent => VUndefined
  | QStr s => VStr s
  | QArr l => VArr (map VStr l)
  end.

(** ToBoolean on a query parameter. *)
Definition qtruthy (q : qval) : bool := truthy (qval_to_value q).

(** [q !== v] where [q] comes from the query and [v] from the session: an
    array from the query is a fresh object, identical to nothing stored. *)
Definition strict_neq (q : qval) (v : value) : bool :=
  match q, v with
  | QAbsent, VUndefined => false
  | QStr a, VStr b => negb (a =? b)%string
  | _, _ => true
  end.

(** ToString on a query parameter (an array joins its elements with commas). *)
Definition qval_to_string (q : qval) : string :=
  match q with
  | QAbsent => "undefined"
  | QStr s => s
  | QArr l => String.concat "," l
  end.

(* ===================================================================== *)
(** ** Session, events, world *)
(* ===================================================================== *)

Inductive session_key : Type :=
| redditState
| redditAccessToken
| redditRefreshToken
| redditTokenExpiresAt
| redditUserInfo
| discordUserInfo.

(** The fields of [request.session] the two route files touch; an unset
    field is [VUndefined]. *)
Record Session : Type := mkSession {
  s_redditState : value;
  s_redditAccessToken : value;
  s_redditRefreshToken : value;
  s_redditTokenExpiresAt : value;
  s_redditUserInfo : value;
  s_discordUserInfo : value;
}.

Definition session_get (k : session_key) (s : Session) : value :=
  match k with
  | redditState => s_redditState s
  | redditAccessToken => s_redditAccessToken s
  | redditRefreshToken => s_redditRefreshToken s
  | redditTokenExpiresAt => s_redditTokenExpiresAt s
  | redditUserInfo => s_redditUserInfo s
  | discordUserInfo => s_discordUserInfo s
  end.

Definition session_set (k : session_key) (v : value) (s : Session) : Session :=
  match k with
  | redditState =>
      mkSession v (s_redditAccessToken s) (s_redditRefreshToken s)
        (s_redditTokenExpiresAt s) (s_redditUserInfo s) (s_discordUserInfo s)
  | redditAccessToken =>
      mkSession (s_redditState s) v (s_redditRefreshToken s)
        (s_redditTokenExpiresAt s) (s_redditUserInfo s) (s_discordUserInfo s)
  | redditRefreshToken =>
      mkSession (s_redditState s) (s_redditAccessToken s) v
        (s_redditTokenExpiresAt s) (s_redditUserInfo s) (s_discordUserInfo s)
  | redditTokenExpiresAt =>
      mkSession (s_redditState s) (s_redditAccessToken s) (s_redditRefreshToken s)
        v (s_redditUserInfo s) (s_discordUserInfo s)
  | redditUserInfo =>
      mkSession (s_redditState s) (s_redditAccessToken s) (s_redditRefreshToken s)
        (s_redditTokenExpiresAt s) v (s_discordUserInfo s)
  | discordUserInfo =>
      mkSession (s_redditState s) (s_redditAccessToken s) (s_redditRefreshToken s)
        (s_redditTokenExpiresAt s) (s_redditUserInfo s) v
  end.

(** Exceptions the handlers can see. *)
Inductive exn : Type :=
| FetchFailed                         (* fetch() rejected *)
| InvalidJSON                         (* response.json() rejected *)
| TypeError (prop : string)           (* property read on undefined/null *)
| TokenStatusError (status : Z)       (* redditAuth.js line 68 *)
| TokenProviderError (err : value)    (* redditAuth.js line 73 *)
| UserInfoStatusError (status : Z)    (* redditAuth.js line 100 *)
| StorageFault                        (* findOne/insertOne rejected *)
| HeadersSent.                        (* writeHead on an ended response *)

Inductive logged : Type :=
| LVal (v : value)
| LExn (e : exn).

(** Calls made on external objects, in program order. *)
Inductive event : Type :=
| EvFetch (url method : string) (headers : list (string * string))
          (body : option string)
| EvLogInfo (args : list logged)
| EvLogError (args : list logged)
| EvWriteHead (status : Z)
| EvEnd (body : option string)
| EvRedirect (location : string)
| EvFindOne (query : value)
| EvInsertOne (doc : value)
| EvSessionWrite (k : session_key) (v : value).

Record world : Type := mkWorld {
  session : Session;
  redditAccounts : list value;      (* db.collection('redditAccounts') *)
  trace : list event;
}.

(** The world a handler starts in: nothing has been called yet. *)
Definition init_world (s : Session) (db : list value) : world :=
  mkWorld s db [].

(** A provider response as [fetch] resolves it; [json_body = None] when
    [response.json()] rejects. *)
Inductive fetch_result : Type :=
| NetworkError
| Response (status : Z) (json_body : option value).

Record Env : Type := mkEnv {
  fetch : string -> option string -> fetch_result;  (* by URL and body *)
  clock : list event -> Z;          (* Date.now() after the given calls *)
  findOne_faults : bool;
  insertOne_faults : bool;
  strict_headers : bool;            (* does writeHead raise once ended? *)
  random : string;                  (* `${Math.random()}` at the entry route *)
}.

(** [config.web.host] and [config.reddit.*] of the deployment. *)
Record Config : Type := mkConfig {
  web_host : string;
  reddit_clientID : string;
  reddit_clientSecret : string;
  reddit_redirectURI : string;
}.

(** Engine builtins the handlers lean on and that are taken as given:
    ToString and ToNumber beyond the primitive cases written out below, and
    [Buffer.from(s).toString('base64')]. *)
Record Builtins : Type := mkBuiltins {
  ToString_other : value -> string;
  ToNumber_other : value -> num;
  base64 : string -> string;
}.

(* ===================================================================== *)
(** ** The monad *)
(* ===================================================================== *)

Inductive result (A : Type) : Type :=
| Ok (a : A)
| Throw (e : exn).
Arguments Ok {A} a.
Arguments Throw {A} e.

Definition M (A : Type) : Type := world -> result A * world.

Definition ret {A} (a : A) : M A := fun w => (Ok a, w).

Definition bind {A B} (m : M A) (f : A -> M B) : M B :=
  fun w =>
    match m w with
    | (Ok a, w') => f a w'
    | (Throw e, w') => (Throw e, w')
    end.

Definition throw {A} (e : exn) : M A := fun w => (Throw e, w).

(** [try { body } catch (e) { handler e }] *)
Definition try_catch {A} (body : M A) (handler : exn -> M A) : M A :=
  fun w =>
    match body w with
    | (Ok a, w') => (Ok a, w')
    | (Throw e, w') => handler e w'
    end.

Declare Scope js_scope.
Delimit Scope js_scope with js.
Notation "x <- m ;; k" := (bind m (fun x => k))
  (at level 61, m at next level, right associativity) : js_scope.
Notation "m ;; k" := (bind m (fun _ => k))
  (at level 61, right associativity) : js_scope.
Local Open Scope js_scope.

Definition emit (e : event) : M unit :=
  fun w => (Ok tt, mkWorld (session w) (redditAccounts w) (trace w ++ [e])).

Definition read_session (k : session_key) : M value :=
  fun w => (Ok (session_get k (session w)), w).

(** [request.session.k = v] *)
Definition write_session (k : session_key) (v : value) : M unit :=
  fun w =>
    (Ok tt, mkWorld (session_set k v (session w)) (redditAccounts w)
              (trace w ++ [EvSessionWrite k v])).

(** [v.k] *)
Definition prop (v : value) (k : string) : M value :=
  match get_prop v k with
  | Some x => ret x
  | None => throw (TypeError k)
  end.

Definition log_info (args : list logged) : M unit := emit (EvLogInfo args).
Definition log_error (args : list logged) : M unit := emit (EvLogError args).

(** How an inner block of a handler completes: by falling off its end, or
    by a [return] that leaves the handler. *)
Inductive completion : Type :=
| Normal
| Return.

(** [v.k] when [v] is known not to be [undefined] or [null]. *)
Definition field (v : value) (k : string) : value :=
  match v with
  | VObj fields => lookup k fields
  | _ => VUndefined
  end.

(* ===================================================================== *)
(** ** Collaborators: the response object and the storage collection *)
(* ===================================================================== *)

Definition is_end (e : event) : bool :=
  match e with
  | EvEnd _ | EvRedirect _ => true
  | _ => false
  end.

(** Has the response been ended by an earlier call? *)
Definition ended (tr : list event) : bool := existsb is_end tr.

Definition is_response_call (e : event) : bool :=
  match e with
  | EvWriteHead _ | EvEnd _ | EvRedirect _ => true
  | _ => false
  end.

Definition is_storage_call (e : event) : bool :=
  match e with
  | EvFindOne _ | EvInsertOne _ => true
  | _ => false
  end.

Definition is_fetch (e : event) : bool :=
  match e with
  | EvFetch _ _ _ _ => true
  | _ => false
  end.

Definition is_session_write (e : event) : bool :=
  match e with
  | EvSessionWrite _ _ => true
  | _ => false
  end.

(** The calls a handler made on [response], in order. *)
Definition response_calls (tr : list event) : list event :=
  filter is_response_call tr.

(** The status a caller receives from a handler that answers by [end]: the
    one given by the last [writeHead] before the first [end] ([None] inside
    when there was none and the default status goes out; [None] outside when
    [end] is never called).  The response is sent at its first [end], so
    calls made after it come too late to change the status. *)
Fixpoint status_when_ended (current : option Z) (tr : list event)
  : option (option Z) :=
  match tr with
  | [] => None
  | EvWriteHead n :: rest => status_when_ended (Some n) rest
  | EvEnd _ :: _ => Some current
  | _ :: rest => status_when_ended current rest
  end.

Definition sent_status (tr : list event) : option (option Z) :=
  status_when_ended None tr.

(** The status codes passed to [writeHead], in order. *)
Definition statuses (tr : list event) : list Z :=
  flat_map (fun e => match e with EvWriteHead n => [n] | _ => [] end) tr.

(** A stored document matches a query object when it is an object whose
    property equals the query's, for every property of the query. *)
Definition matches (query doc : value) : bool :=
  match query, doc with
  | VObj q, VObj d => forallb (fun kv => value_eqb (lookup (fst kv) d) (snd kv)) q
  | _, _ => false
  end.

Definition find_first (query : value) (coll : list value) : value :=
  match find (matches query) coll with
  | Some doc => doc
  | None => VNull
  end.

Section Handlers.

Variable env : Env.

(** [response.writeHead(status)].  On an ended response it either raises
    (Node's ERR_HTTP_HEADERS_SENT) or is recorded like any other call,
    according to [strict_headers]. *)
Definition writeHead (status : Z) : M unit :=
  fun w =>
    if ended (trace w) && strict_headers env
    then (Throw HeadersSent, w)
    else emit (EvWriteHead status) w.

(** [response.end(body)] *)
Definition end_ (body : option string) : M unit := emit (EvEnd body).

(** [response.redirect(location)] *)
Definition redirect (location : string) : M unit := emit (EvRedirect location).

(** [await db.collection('redditAccounts').findOne(query)] *)
Definition findOne (query : value) : M value :=
  emit (EvFindOne query);;
  if findOne_faults env then throw StorageFault
  else fun w => (Ok (find_first query (redditAccounts w)), w).

(** [await db.collection('redditAccounts').insertOne(doc)] *)
Definition insertOne (doc : value) : M unit :=
  emit (EvInsertOne doc);;
  if insertOne_faults env then throw StorageFault
  else fun w =>
         (Ok tt, mkWorld (session w) (redditAccounts w ++ [doc]) (trace w)).

(* ------------------------------------------------------------------- *)
(** *** verification.js: [POST /] *)
(* ------------------------------------------------------------------- *)

Definition msg_no_reddit : string := "Not logged in with Reddit".
Definition msg_no_discord : string := "Not logged in with Discord".
Definition msg_db_error : string :=
  "An unexpected error occured. Get in touch with a bot developer.".

Definition post_verify : M unit :=
  reddit <- read_session redditUserInfo;;
  if negb (truthy reddit) then
    writeHead 401;;
    end_ (Some msg_no_reddit)
  else
  discord <- read_session discordUserInfo;;
  if negb (truthy discord) then
    writeHead 401;;
    end_ (Some msg_no_discord)
  else
  c <- try_catch
         (id <- prop discord "id";;
          name <- prop reddit "name";;
          existingLink <- findOne (VObj [("userID", id); ("redditName", name)]);;
          if truthy existingLink then
            writeHead 201;;
            end_ None;;
            ret Return
          else
            discord' <- read_session discordUserInfo;;
            id' <- prop discord' "id";;
            reddit' <- read_session redditUserInfo;;
            name' <- prop reddit' "name";;
            insertOne (VObj [("userID", id'); ("redditName", name')]);;
            ret Normal)
         (fun error =>
            log_error [LVal (VStr "Database error while processing reddit-discord link:");
                       LExn error];;
            writeHead 500;;
            end_ (Some msg_db_error);;
            ret Normal);;
  match c with
  | Return => ret tt
  | Normal =>
      writeHead 201;;
      end_ None
  end.

(* ------------------------------------------------------------------- *)
(** *** redditAuth.js *)
(* ------------------------------------------------------------------- *)

Variable config : Config.
Variable rt : Builtins.

(** ToString: the primitive cases, the rest from the engine. *)
Definition to_string (v : value) : string :=
  match v with
  | VUndefined => "undefined"
  | VNull => "null"
  | VBool true => "true"
  | VBool false => "false"
  | VStr s => s
  | VNum NaN => "NaN"
  | _ => ToString_other rt v
  end.

(** ToNumber: the primitive cases, the rest from the engine. *)
Definition to_number (v : value) : num :=
  match v with
  | VUndefined => NaN
  | VNull => Num 0
  | VBool true => Num 1
  | VBool false => Num 0
  | VNum n => n
  | VDate t => t
  | _ => ToNumber_other rt v
  end.

(** [new Date(n)] *)
Definition new_Date (n : num) : value := VDate (time_clip n).

(** The characters [encodeURIComponent] leaves alone:
    [A-Z a-z 0-9 - _ . ! ~ * ' ( )]. *)
Definition is_unreserved (c : ascii) : bool :=
  let n := N_of_ascii c in
  ((65 <=? n) && (n <=? 90) || (97 <=? n) && (n <=? 122)
   || (48 <=? n) && (n <=? 57))%N
  || existsb (Ascii.eqb c) (list_ascii_of_string "-_.!~*'()").

Definition hex_digit (n : N) : ascii :=
  nth (N.to_nat n) (list_ascii_of_string "0123456789ABCDEF") "0"%char.

Definition percent_encode (c : ascii) : string :=
  let n := N_of_ascii c in
  String "%" (String (hex_digit (n / 16)) (String (hex_digit (n mod 16)) "")).

(** [encodeURIComponent] on the UTF-8 bytes of a well-formed string: every
    byte that is not an unreserved character becomes [%XX]. *)
Fixpoint encodeURIComponent (s : string) : string :=
  match s with
  | EmptyString => ""
  | String c rest =>
      (if is_unreserved c then String c "" else percent_encode c)
      ++ encodeURIComponent rest
  end.

Definition redditRedirectURI : string :=
  web_host config ++ "/auth/reddit/callback".

Definition redditAuthURIBase : string :=
  "https://old.reddit.com/api/v1/authorize"
  ++ "?client_id=" ++ reddit_clientID config
  ++ "&response_type=code"
  ++ "&redirect_uri=" ++ encodeURIComponent redditRedirectURI
  ++ "&scope=identity"
  ++ "&duration=permanent".

Definition authURI (state : string) : string :=
  redditAuthURIBase ++ "&state=" ++ encodeURIComponent state.

(** [content] is the object's entries, values already as strings. *)
Definition formData (content : list (string * string)) : string :=
  String.concat "&"
    (map (fun kv => encodeURIComponent (fst kv) ++ "=" ++ encodeURIComponent (snd kv))
       content).

(** [await fetch(url, {method, headers, body})]: status and parsed body. *)
Definition fetch_ (url method : string) (headers : list (string * string))
    (body : option string) : M (Z * option value) :=
  emit (EvFetch url method headers body);;
  match fetch env url body with
  | NetworkError => throw FetchFailed
  | Response status json_body => ret (status, json_body)
  end.

(** [await response.json()] *)
Definition json (response : Z * option value) : M value :=
  match snd response with
  | Some data => ret data
  | None => throw InvalidJSON
  end.

Record TokenSet : Type := mkTokenSet {
  accessToken : value;
  refreshToken : value;
  tokenType : value;
  scope : value;
  expiresIn : value;
}.

Definition token_url : string := "https://www.reddit.com/api/v1/access_token".
Definition me_url : string := "https://oauth.reddit.com/api/v1/me".

Definition token_request_body (code : qval) : string :=
  formData [("grant_type", "authorization_code");
            ("redirect_uri", reddit_redirectURI config);
            ("code", qval_to_string code)].

Definition fetchRedditTokens (code : qval) : M TokenSet :=
  response <- fetch_ token_url "POST"
    [("Content-Type", "application/x-www-form-urlencoded");
     ("Authorization",
      "Basic " ++ base64 rt (reddit_clientID config ++ ":" ++ reddit_clientSecret config))]
    (Some (token_request_body code));;
  if negb (fst response =? 200) then throw (TokenStatusError (fst response))
  else
  data <- json response;;
  error <- prop data "error";;
  if truthy error then throw (TokenProviderError error)
  else
  access_token <- prop data "access_token";;
  refresh_token <- prop data "refresh_token";;
  token_type <- prop data "token_type";;
  scope <- prop data "scope";;
  expires_in <- prop data "expires_in";;
  ret (mkTokenSet access_token refresh_token token_type scope expires_in).

Definition fetchRedditUserInfo (accessToken : value) : M value :=
  log_info [LVal accessToken];;
  response <- fetch_ me_url "GET"
    [("Authorization", "bearer " ++ to_string accessToken)] None;;
  if negb (fst response =? 200) then throw (UserInfoStatusError (fst response))
  else
  data <- json response;;
  name <- prop data "name";;
  subreddit <- prop data "subreddit";;
  avatarURL <- (if truthy subreddit then prop subreddit "icon_img" else ret subreddit);;
  created_utc <- prop data "created_utc";;
  ret (VObj [("name", name);
             ("avatarURL", avatarURL);
             ("accountAge", new_Date (num_mul (to_number created_utc) (Num 1000)))]).

(** [Date.now()]: the clock as it stands after the calls made so far. *)
Definition Date_now : M Z := fun w => (Ok (clock env (trace w)), w).

(** [GET /]: the OAuth entry point. *)
Definition get_entry : M unit :=
  let state := random env in
  write_session redditState (VStr state);;
  redirect (authURI state).

Record Query : Type := mkQuery {
  q_error : qval;
  q_state : qval;
  q_code : qval;
}.

Definition msg_uh_oh : string := "uh-oh".
Definition msg_token_error : string :=
  "Error requesting Reddit authorization. Please try again. Contact a developer if the error persists.".
Definition msg_userinfo_error : string :=
  "Error fetching your account details. Please try again. Contact a developer if the error persists.".

(** [GET /callback] *)
Definition get_callback (query : Query) : M unit :=
  let error := q_error query in
  let state := q_state query in
  let code := q_code query in
  if qtruthy error then
    log_error [LVal (VStr "Reddit gave error after auth page:");
               LVal (qval_to_value error)];;
    end_ (Some msg_uh_oh)
  else
  expected <- read_session redditState;;
  if strict_neq state expected then
    (* the message logs [request.session.state], a field nothing sets *)
    log_error [LVal (VStr "Reddit gave incorrect state after auth page: ");
               LVal (qval_to_value state); LVal (VStr ", expected");
               LVal VUndefined];;
    end_ (Some msg_uh_oh)
  else
  log_info [LVal (qval_to_value code)];;
  got <- try_catch
           (tokens <- fetchRedditTokens code;;
            ret (Some tokens))
           (fun tokenError =>
              log_error [LVal (VStr "Error requesting Reddit access token:");
                         LExn tokenError];;
              end_ (Some msg_token_error);;
              ret None);;
  match got with
  | None => ret tt
  | Some tokens =>
      write_session redditAccessToken (accessToken tokens);;
      write_session redditRefreshToken (refreshToken tokens);;
      now <- Date_now;;
      write_session redditTokenExpiresAt
        (new_Date (num_add (Num now) (num_mul (to_number (expiresIn tokens)) (Num 1000))));;
      c <- try_catch
             (userInfo <- fetchRedditUserInfo (accessToken tokens);;
              write_session redditUserInfo userInfo;;
              ret Normal)
             (fun userInfoError =>
                log_error [LVal (VStr "Error fetching Reddit user info:");
                           LExn userInfoError];;
                end_ (Some msg_userinfo_error);;
                ret Return);;
      match c with
      | Return => ret tt
      | Normal => redirect "/"
      end
  end.

(* ------------------------------------------------------------------- *)
(** *** verification.js: [GET /] *)
(* ------------------------------------------------------------------- *)

(** The double quote character. *)
Definition dquote : string := String (ascii_of_nat 34) "".

(** [a && b] *)
Definition js_and (a b : value) : value := if truthy a then b else a.

(** The fixed text of the page around its three interpolations. *)
Definition page_head : string :=
  "
			<!DOCTYPE html>
			<html>
				<head>
					<meta charset=" ++ dquote ++ "utf-8" ++ dquote ++ ">
					<title>Verification</title>
				</head>
				<body>
					<p>Discord account: ".

Definition page_between_accounts : string :=
  "</p>
					<p>Reddit account: ".

Definition page_before_action : string :=
  "</p>
					<p>".

Definition page_tail : string :=
  "</p>
					<script>
						function linkAccounts () {
							fetch('/verify', {method: 'POST'}).then(response => {
								if (!response.ok) throw response;
								return response;
							}).then(() => {
								alert('Accounts linked successfully!');
							}).catch(() => {
								alert('Failed to link your accounts.');
							});
						}
					</script>
				</body>
			</html>
		".

(** The Discord paragraph; the properties are read only when [discord] is
    truthy, where a property read cannot throw. *)
Definition discord_account (discord : value) : string :=
  if truthy discord then
    to_string (field discord "username") ++ "#"
    ++ to_string (field discord "discriminator")
    ++ " (<a href=" ++ dquote ++ "/auth/discord/logout?next=/verify" ++ dquote
    ++ ">log out</a>)"
  else
    "<a href=" ++ dquote ++ "/auth/discord?next=/verify" ++ dquote ++ ">Connect</a>".

Definition reddit_account (reddit : value) : string :=
  if truthy reddit then
    "/u/" ++ to_string (field reddit "name")
    ++ " (<a href=" ++ dquote ++ "/auth/reddit/logout?next=/verify" ++ dquote
    ++ ">log out</a>)"
  else
    "<a href=" ++ dquote ++ "/auth/reddit?next=/verify" ++ dquote ++ ">Connect</a>".

Definition link_button : string :=
  "<button onclick=" ++ dquote ++ "linkAccounts()" ++ dquote ++ ">Link Accounts</button>".

Definition link_hint : string :=
  "Connect a Reddit account and a Discord account to link them together.".

Definition link_action (reddit discord : value) : string :=
  if truthy (js_and discord reddit) then link_button else link_hint.

Definition verify_page (reddit discord : value) : string :=
  page_head ++ discord_account discord
  ++ page_between_accounts ++ reddit_account reddit
  ++ page_before_action ++ link_action reddit discord
  ++ page_tail.

Definition get_verify : M unit :=
  reddit <- read_session redditUserInfo;;
  discord <- read_session discordUserInfo;;
  end_ (Some (verify_page reddit discord)).

End Handlers.

(** The link record [POST /] looks up and inserts for a session. *)
Definition link_record (s : Session) : value :=
  VObj [("userID", field (s_discordUserInfo s) "id");
        ("redditName", field (s_redditUserInfo s) "name")].

Definition empty_session : Session :=
  mkSession VUndefined VUndefined VUndefined VUndefined VUndefined VUndefined.

(** What a call returns or throws.  The two provider calls depend on the
    world only through what they append to the trace (lemmas
    [fetchRedditTokens_run] and [fetchRedditUserInfo_run] below), so their
    outcome is read off a run in the empty world. *)
Definition outcome {A} (m : M A) : result A := fst (m (init_world empty_session [])).

Definition exchange (env : Env) (config : Config) (rt : Builtins) (code : qval)
  : result TokenSet :=
  outcome (fetchRedditTokens env config rt code).

Definition profile (env : Env) (rt : Builtins) (accessToken : value) : result value :=
  outcome (fetchRedditUserInfo env rt accessToken).

(** The request [fetchRedditTokens] sends for a code. *)
Definition token_fetch_event (config : Config) (rt : Builtins) (code : qval) : event :=
  EvFetch token_url "POST"
    [("Content-Type", "application/x-www-form-urlencoded");
     ("Authorization",
      "Basic " ++ base64 rt (reddit_clientID config ++ ":" ++ reddit_clientSecret config))]
    (Some (token_request_body config code)).

(** The request [fetchRedditUserInfo] sends for an access token. *)
Definition me_fetch_event (rt : Builtins) (accessToken : value) : event :=
  EvFetch me_url "GET" [("Authorization", "bearer " ++ to_string rt accessToken)] None.

(** The session once the callback has stored the tokens, [now] being what
    [Date.now()] returned. *)
Definition expiry (rt : Builtins) (now : Z) (tokens : TokenSet) : value :=
  new_Date (num_add (Num now) (num_mul (to_number rt (expiresIn tokens)) (Num 1000))).

Definition store_tokens (rt : Builtins) (now : Z) (tokens : TokenSet) (s : Session)
  : Session :=
  session_set redditTokenExpiresAt (expiry rt now tokens)
    (session_set redditRefreshToken (refreshToken tokens)
       (session_set redditAccessToken (accessToken tokens) s)).

(** The calls of a callback up to the moment it reads the clock: the code is
    logged, the exchange is made, the two tokens are stored. *)
Definition trace_to_clock (config : Config) (rt : Builtins) (code : qval)
    (tokens : TokenSet) : list event :=
  [EvLogInfo [LVal (qval_to_value code)];
   token_fetch_event config rt code;
   EvSessionWrite redditAccessToken (accessToken tokens);
   EvSessionWrite redditRefreshToken (refreshToken tokens)].

(** The spec's wording of when the exchange fails, for comparison with the
    code: "the HTTP status is not success, or the response body contains an
    error field". *)
Definition http_success (status : Z) : bool := (200 <=? status) && (status <? 300).

Definition has_error_field (data : value) : bool :=
  match data with
  | VObj fields => has_key "error" fields
  | _ => false
  end.

Definition spec_exchange_fails (status : Z) (data : value) : bool :=
  negb (http_success status) || has_error_field data.

(** What the catch block of [POST /] does for a storage fault. *)
Definition storage_fault_calls : list event :=
  [EvLogError [LVal (VStr "Database error while processing reddit-discord link:");
               LExn StorageFault];
   EvWriteHead 500; EvEnd (Some msg_db_error)].

(** How many times a character occurs in a string. *)
Fixpoint count_char (c : ascii) (s : string) : nat :=
  match s with
  | EmptyString => 0%nat
  | String x rest => ((if Ascii.eqb x c then 1 else 0) + count_char c rest)%nat
  end.

Definition is_throw {A} (r : result A) : bool :=
  match r with
  | Ok _ => false
  | Throw _ => true
  end.

(* ===================================================================== *)
(** ** Concrete inputs *)
(* ===================================================================== *)

Module Sample.

Definition alice : value := VObj [("name", VStr "alice")].
Definition user42 : value := VObj [("id", VStr "42")].

Definition both : Session := session_set discordUserInfo user42
                               (session_set redditUserInfo alice empty_session).
Definition only_discord : Session := session_set discordUserInfo user42 empty_session.
Definition only_reddit : Session := session_set redditUserInfo alice empty_session.

Definition link_42_alice : value :=
  VObj [("userID", VStr "42"); ("redditName", VStr "alice")].

Definition config : Config :=
  mkConfig "https://bot.example" "client" "secret"
    "https://bot.example/auth/reddit/callback".

Definition rt : Builtins :=
  mkBuiltins (fun _ => "[object Object]") (fun _ => NaN) (fun s => s).

Definition token_body (expires_in : value) : value :=
  VObj [("access_token", VStr "at"); ("refresh_token", VStr "rt");
        ("token_type", VStr "bearer"); ("scope", VStr "identity");
        ("expires_in", expires_in)].

Definition me_body : value :=
  VObj [("name", VStr "alice"); ("created_utc", VNum (Num 1500000000))].

(** A provider that answers both endpoints with the given results. *)
Definition provider (tokens me : fetch_result) (url : string) (_ : option string)
  : fetch_result :=
  if (url =? "https://www.reddit.com/api/v1/access_token")%string then tokens else me.

Definition env (tokens me : fetch_result) (find_faults insert_faults strict : bool)
  : Env :=
  mkEnv (provider tokens me) (fun _ => 1700000000000)
    find_faults insert_faults strict "0.123".

(** Storage and provider in working order. *)
Definition env_ok : Env :=
  env (Response 200 (Some (token_body (VNum (Num 3600)))))
      (Response 200 (Some me_body)) false false true.

(** The lookup faults; the response object records a late [writeHead]. *)
Definition env_lookup_fault : Env :=
  env NetworkError NetworkError true false false.

(** The lookup faults; the response object raises on a late [writeHead]. *)
Definition env_lookup_fault_strict : Env :=
  env NetworkError NetworkError true false true.


(** The token endpoint answers 201 Created with a well-formed body. *)
Definition env_created : Env :=
  env (Response 201 (Some (token_body (VNum (Num 3600)))))
      (Response 200 (Some me_body)) false false true.

(** The token endpoint answers 200 with a body whose [error] is empty. *)
Definition body_empty_error : value :=
  VObj [("error", VStr ""); ("access_token", VStr "at")].

Definition env_empty_error : Env :=
  env (Response 200 (Some body_empty_error))
      (Response 200 (Some me_body)) false false true.

(** The token endpoint answers 401. *)
Definition env_unauthorized : Env :=
  env (Response 401 (Some (VObj [("message", VStr "Unauthorized")])))
      (Response 200 (Some me_body)) false false true.

(** Nothing answers. *)
Definition env_offline : Env :=
  env NetworkError NetworkError false false true.

(** The exchange answers without [expires_in]. *)
Definition body_no_expiry : value :=
  VObj [("access_token", VStr "at"); ("refresh_token", VStr "rt")].

Definition env_no_expiry : Env :=
  env (Response 200 (Some body_no_expiry)) (Response 200 (Some me_body))
      false false true.

Definition tokens_3600 : TokenSet :=
  mkTokenSet (VStr "at") (VStr "rt") (VStr "bearer") (VStr "identity") (VNum (Num 3600)).

Definition tokens_no_expiry : TokenSet :=
  mkTokenSet (VStr "at") (VStr "rt") VUndefined VUndefined VUndefined.

Definition callback_query : Query := mkQuery QAbsent (QStr "0.123") (QStr "abc").

Definition redirected : Session := session_set redditState (VStr "0.123") empty_session.

(** After the entry route, with a Discord identity already in the session. *)
Definition redirected_with_discord : Session :=
  session_set discordUserInfo user42 redirected.

End Sample.

(* ===================================================================== *)
(** ** Basic facts about values and the storage model *)
(* ===================================================================== *)

Lemma truthy_get_prop (v : value) (k : string) :
  truthy v = true -> get_prop v k = Some (field v k).
Proof.
  destruct v; simpl; intros H; try discriminate; reflexivity.
Qed.

Lemma prop_truthy (v : value) (k : string) (w : world) :
  truthy v = true -> prop v k w = (Ok (field v k), w).
Proof.
  intros H. unfold prop. rewrite (truthy_get_prop v k H). reflexivity.
Qed.

Lemma matches_truthy (q doc : value) : matches q doc = true -> truthy doc = true.
Proof.
  destruct q; simpl; try discriminate.
  destruct doc; simpl; try discriminate. reflexivity.
Qed.

Lemma find_first_found (q : value) (coll : list value) :
  existsb (matches q) coll = true ->
  truthy (find_first q coll) = true /\ In (find_first q coll) coll.
Proof.
  unfold find_first. induction coll as [|d coll IH]; simpl.
  - discriminate.
  - destruct (matches q d) eqn:Hm; simpl.
    + intros _. split; [exact (matches_truthy q d Hm) | now left].
    + intros H. destruct (IH H) as [Ht Hin]. split; [exact Ht | now right].
Qed.

Lemma find_first_missing (q : value) (coll : list value) :
  existsb (matches q) coll = false -> find_first q coll = VNull.
Proof.
  unfold find_first. induction coll as [|d coll IH]; simpl.
  - reflexivity.
  - destruct (matches q d); simpl; [discriminate | exact IH].
Qed.

Lemma num_eqb_refl (n : num) : num_eqb n n = true.
Proof. destruct n; cbn; [apply Z.eqb_refl | reflexivity]. Qed.

Lemma value_eqb_refl : forall v : value, value_eqb v v = true.
Proof.
  fix IH 1. intros [ | | b | n | x | t | l | f]; cbn.
  - reflexivity.
  - reflexivity.
  - apply Bool.eqb_reflx.
  - apply num_eqb_refl.
  - apply String.eqb_refl.
  - apply num_eqb_refl.
  - induction l as [|y l IHl]; [reflexivity|].
    rewrite (IH y), IHl. reflexivity.
  - induction f as [|[k y] f IHf]; [reflexivity|].
    rewrite String.eqb_refl, (IH y), IHf. reflexivity.
Qed.

(** The record the handler inserts is one its own lookup finds. *)
Lemma link_record_matches_itself (s : Session) :
  matches (link_record s) (link_record s) = true.
Proof.
  unfold link_record. cbn. rewrite !value_eqb_refl. reflexivity.
Qed.

(** Symbolic execution of a handler: unfold the monad and the collaborators,
    leaving the values that come from outside in place. *)
Ltac exec :=
  cbv beta iota zeta delta
    [bind ret throw try_catch emit read_session write_session log_info log_error
     writeHead end_ redirect findOne insertOne Date_now json
     session redditAccounts trace session_get init_world
     negb andb ended existsb is_end fst snd];
  cbn [app].

(* ===================================================================== *)
(** ** verification.js: [POST /] *)
(* ===================================================================== *)

Section PostVerify.

Variable env : Env.
Variables (s : Session) (db : list value).

(** C6.  A session with a Discord identity but no Reddit identity is
    answered 401 "Not logged in with Reddit"; one with a Reddit identity
    but no Discord identity is answered 401 "Not logged in with Discord".
    In both cases these two response calls are all the handler does: no
    lookup, no insert, storage and session as they were. *)
Theorem post_verify_one_identity_missing :
  (truthy (s_redditUserInfo s) = false ->
   truthy (s_discordUserInfo s) = true ->
   post_verify env (init_world s db) =
     (Ok tt, mkWorld s db [EvWriteHead 401; EvEnd (Some "Not logged in with Reddit")]))
  /\
  (truthy (s_redditUserInfo s) = true ->
   truthy (s_discordUserInfo s) = false ->
   post_verify env (init_world s db) =
     (Ok tt, mkWorld s db [EvWriteHead 401; EvEnd (Some "Not logged in with Discord")])).
Proof.
  split; intros Hr Hd; unfold post_verify; exec.
  - rewrite Hr. exec. reflexivity.
  - rewrite Hr. exec. rewrite Hd. exec. reflexivity.
Qed.

(** C10.  With neither identity in the session the 401 names Reddit: the
    Reddit identity is tested first. *)
Theorem post_verify_no_identity_names_reddit :
  truthy (s_redditUserInfo s) = false ->
  truthy (s_discordUserInfo s) = false ->
  post_verify env (init_world s db) =
    (Ok tt, mkWorld s db [EvWriteHead 401; EvEnd (Some "Not logged in with Reddit")]).
Proof.
  intros Hr _. unfold post_verify; exec. rewrite Hr. exec. reflexivity.
Qed.

Hypothesis Hreddit : truthy (s_redditUserInfo s) = true.
Hypothesis Hdiscord : truthy (s_discordUserInfo s) = true.

(** With both identities present the handler is its try block followed
    by the code after it. *)
Ltac enter :=
  unfold post_verify; exec;
  rewrite Hreddit; exec; rewrite Hdiscord; exec;
  rewrite !(prop_truthy _ "id" _ Hdiscord), !(prop_truthy _ "name" _ Hreddit);
  fold (link_record s); exec.

(** A stored link: lookup, 201, nothing inserted. *)
Lemma post_verify_already_linked :
  findOne_faults env = false ->
  existsb (matches (link_record s)) db = true ->
  post_verify env (init_world s db) =
    (Ok tt, mkWorld s db [EvFindOne (link_record s); EvWriteHead 201; EvEnd None]).
Proof.
  intros Hf Hex. destruct (find_first_found _ _ Hex) as [Ht _].
  enter. rewrite Hf. rewrite Ht. exec. reflexivity.
Qed.

(** No stored link: lookup, one insert, 201. *)
Lemma post_verify_new_link :
  findOne_faults env = false ->
  existsb (matches (link_record s)) db = false ->
  insertOne_faults env = false ->
  post_verify env (init_world s db) =
    (Ok tt, mkWorld s (db ++ [link_record s])
              [EvFindOne (link_record s); EvInsertOne (link_record s);
               EvWriteHead 201; EvEnd None]).
Proof.
  intros Hf Hex Hi. pose proof (find_first_missing _ _ Hex) as Hn.
  enter. rewrite Hf. rewrite Hn. cbn [truthy]. exec.
  rewrite !(prop_truthy _ "id" _ Hdiscord), !(prop_truthy _ "name" _ Hreddit).
  fold (link_record s). exec. rewrite Hi. exec. reflexivity.
Qed.

(** C5.  With both identities and storage answering: when a record with
    the session's (userID, redditName) pair is stored, the handler makes the
    lookup, answers 201 and inserts nothing; when none is stored, it makes
    the lookup, one insertOne of that pair, and answers 201. *)
Theorem post_verify_links_once :
  findOne_faults env = false ->
  (existsb (matches (link_record s)) db = true ->
   post_verify env (init_world s db) =
     (Ok tt, mkWorld s db [EvFindOne (link_record s); EvWriteHead 201; EvEnd None]))
  /\
  (existsb (matches (link_record s)) db = false ->
   insertOne_faults env = false ->
   post_verify env (init_world s db) =
     (Ok tt, mkWorld s (db ++ [link_record s])
               [EvFindOne (link_record s); EvInsertOne (link_record s);
                EvWriteHead 201; EvEnd None])).
Proof.
  intros Hf. split.
  - now apply post_verify_already_linked.
  - now apply post_verify_new_link.
Qed.

(** C1.  With both identities and a lookup or insert that faults, the
    response the caller receives has status 500, not 201: the handler's
    first two calls on the response are [writeHead(500)] and [end] with the
    generic message, which send it, whether the response object raises on
    the late [writeHead(201)] that follows the catch block or records it.
    Storage and session are as they were. *)
Theorem post_verify_storage_fault :
  findOne_faults env = true \/
  (existsb (matches (link_record s)) db = false /\ insertOne_faults env = true) ->
  sent_status (trace (snd (post_verify env (init_world s db)))) = Some (Some 500) /\
  sent_status (trace (snd (post_verify env (init_world s db)))) <> Some (Some 201) /\
  firstn 2 (response_calls (trace (snd (post_verify env (init_world s db))))) =
    [EvWriteHead 500; EvEnd (Some msg_db_error)] /\
  session (snd (post_verify env (init_world s db))) = s /\
  redditAccounts (snd (post_verify env (init_world s db))) = db.
Proof.
  intros [Hf | [Hex Hi]].
  - enter. rewrite Hf. exec.
    destruct (strict_headers env); repeat split; try reflexivity; discriminate.
  - pose proof (find_first_missing _ _ Hex) as Hn.
    enter. destruct (findOne_faults env); exec.
    + destruct (strict_headers env); repeat split; try reflexivity; discriminate.
    + rewrite Hn. cbn [truthy]. exec.
      rewrite !(prop_truthy _ "id" _ Hdiscord), !(prop_truthy _ "name" _ Hreddit).
      fold (link_record s). exec. rewrite Hi. exec.
      destruct (strict_headers env); repeat split; try reflexivity; discriminate.
Qed.

End PostVerify.

(** Two requests in a row from the same session, storage answering: the
    first records the link, the second finds it; one record is added. *)
Lemma post_verify_twice (env : Env) (s : Session) (db : list value) :
  truthy (s_redditUserInfo s) = true ->
  truthy (s_discordUserInfo s) = true ->
  findOne_faults env = false ->
  insertOne_faults env = false ->
  existsb (matches (link_record s)) db = false ->
  let db1 := redditAccounts (snd (post_verify env (init_world s db))) in
  let db2 := redditAccounts (snd (post_verify env (init_world s db1))) in
  db1 = (db ++ [link_record s])%list /\ db2 = db1.
Proof.
  intros Hr Hd Hf Hi Hex db1 db2. subst db1 db2.
  rewrite (post_verify_new_link env s db Hr Hd Hf Hex Hi). cbn [snd redditAccounts].
  split; [reflexivity|].
  rewrite post_verify_already_linked; auto.
  rewrite existsb_app. cbn [existsb]. rewrite link_record_matches_itself.
  now rewrite orb_true_r.
Qed.

(* ===================================================================== *)
(** ** redditAuth.js: the two provider calls *)
(* ===================================================================== *)

Section ProviderCalls.

Variable env : Env.
Variable config : Config.
Variable rt : Builtins.

(** The exchange leaves session and storage alone and appends its one
    request to the trace; what it returns does not depend on the world. *)
Lemma fetchRedditTokens_run (code : qval) (w : world) :
  fetchRedditTokens env config rt code w =
  (exchange env config rt code,
   mkWorld (session w) (redditAccounts w) (trace w ++ [token_fetch_event config rt code])).
Proof.
  unfold exchange, outcome, token_fetch_event, fetchRedditTokens, fetch_.
  exec.
  destruct (fetch env token_url (Some (token_request_body config code)))
    as [|status [data|]]; exec; try reflexivity.
  - destruct (status =? 200); exec; try reflexivity.
    destruct data; cbn; try reflexivity;
      match goal with |- context [truthy ?e] => destruct (truthy e) end;
      reflexivity.
  - destruct (status =? 200); reflexivity.
Qed.

(** The profile fetch leaves session and storage alone and appends the log
    line and its one request. *)
Lemma fetchRedditUserInfo_run (accessToken : value) (w : world) :
  fetchRedditUserInfo env rt accessToken w =
  (profile env rt accessToken,
   mkWorld (session w) (redditAccounts w)
     (trace w ++ [EvLogInfo [LVal accessToken]; me_fetch_event rt accessToken])).
Proof.
  unfold profile, outcome, me_fetch_event, fetchRedditUserInfo, fetch_.
  exec. rewrite <- app_assoc. cbn [app].
  destruct (fetch env me_url None) as [|status [data|]]; exec; try reflexivity.
  - destruct (status =? 200); exec; try reflexivity.
    destruct data; cbn; try reflexivity.
    destruct (truthy (lookup "subreddit" fields)) eqn:Ht; [|reflexivity].
    rewrite !(prop_truthy _ "icon_img" _ Ht). reflexivity.
  - destruct (status =? 200); reflexivity.
Qed.

(** When the provider answers the exchange with a status and a JSON body,
    this is what [fetchRedditTokens] makes of it. *)
Lemma exchange_of_response (code : qval) (status : Z) (data : value) :
  fetch env token_url (Some (token_request_body config code)) =
    Response status (Some data) ->
  exchange env config rt code =
    if negb (status =? 200) then Throw (TokenStatusError status)
    else match get_prop data "error" with
         | None => Throw (TypeError "error")
         | Some error =>
             if truthy error then Throw (TokenProviderError error)
             else Ok (mkTokenSet (field data "access_token") (field data "refresh_token")
                        (field data "token_type") (field data "scope")
                        (field data "expires_in"))
         end.
Proof.
  intros Hf. unfold exchange, outcome, fetchRedditTokens, fetch_. exec.
  rewrite Hf. exec.
  destruct (status =? 200); exec; [|reflexivity].
  destruct data; cbn; try reflexivity;
    match goal with |- context [truthy ?e] => destruct (truthy e) end;
    reflexivity.
Qed.

End ProviderCalls.

(* ===================================================================== *)
(** ** redditAuth.js: [GET /callback] *)
(* ===================================================================== *)

Lemma strict_neq_of_differs (q : qval) (v : value) :
  qval_to_value q <> v -> strict_neq q v = true.
Proof.
  destruct q as [|a|l], v; cbn; intros H; try reflexivity.
  - now contradiction H.
  - apply negb_true_iff, String.eqb_neq. intros ->. now contradiction H.
Qed.

Lemma qtruthy_nonempty (e : string) : e <> "" -> qtruthy (QStr e) = true.
Proof.
  intros H. cbn. now apply negb_true_iff, String.eqb_neq.
Qed.

Section Callback.

Variable env : Env.
Variable config : Config.
Variable rt : Builtins.
Variables (q : Query) (s : Session) (db : list value).

(** A callback that fails either check logs, answers "uh-oh" and does
    nothing else. *)
Lemma get_callback_rejected :
  qtruthy (q_error q) = true \/ strict_neq (q_state q) (s_redditState s) = true ->
  exists args,
    get_callback env config rt q (init_world s db) =
      (Ok tt, mkWorld s db [EvLogError args; EvEnd (Some "uh-oh")]).
Proof.
  intros H. unfold get_callback. exec.
  destruct (qtruthy (q_error q)) eqn:He; exec.
  - eexists. reflexivity.
  - destruct H as [H | H]; [discriminate|]. rewrite H. exec.
    eexists. reflexivity.
Qed.

Hypothesis Herror : qtruthy (q_error q) = false.
Hypothesis Hstate : strict_neq (q_state q) (s_redditState s) = false.

(** A callback that passes both checks: the whole run, by the outcome of
    the exchange and of the profile fetch. *)
Lemma get_callback_passed :
  get_callback env config rt q (init_world s db) =
  match exchange env config rt (q_code q) with
  | Throw tokenError =>
      (Ok tt,
       mkWorld s db
         [EvLogInfo [LVal (qval_to_value (q_code q))];
          token_fetch_event config rt (q_code q);
          EvLogError [LVal (VStr "Error requesting Reddit access token:");
                      LExn tokenError];
          EvEnd (Some msg_token_error)])
  | Ok tokens =>
      let now := clock env (trace_to_clock config rt (q_code q) tokens) in
      let stored := store_tokens rt now tokens s in
      let calls :=
        (trace_to_clock config rt (q_code q) tokens
         ++ [EvSessionWrite redditTokenExpiresAt (expiry rt now tokens);
             EvLogInfo [LVal (accessToken tokens)];
             me_fetch_event rt (accessToken tokens)])%list in
      match profile env rt (accessToken tokens) with
      | Throw userInfoError =>
          (Ok tt,
           mkWorld stored db
             (calls ++ [EvLogError [LVal (VStr "Error fetching Reddit user info:");
                                    LExn userInfoError];
                        EvEnd (Some msg_userinfo_error)]))
      | Ok userInfo =>
          (Ok tt,
           mkWorld (session_set redditUserInfo userInfo stored) db
             (calls ++ [EvSessionWrite redditUserInfo userInfo; EvRedirect "/"]))
      end
  end.
Proof.
  unfold get_callback. exec. rewrite Herror. exec. rewrite Hstate. exec.
  rewrite fetchRedditTokens_run. exec.
  destruct (exchange env config rt (q_code q)) as [tokens | tokenError]; exec.
  - rewrite fetchRedditUserInfo_run. exec.
    unfold trace_to_clock, store_tokens, expiry. cbn [app].
    destruct (profile env rt (accessToken tokens)); exec; reflexivity.
  - reflexivity.
Qed.



(** C4, as the code has it.  When the provider answers the exchange with a
    status and a JSON body, [fetchRedditTokens] throws exactly when the
    status is not 200, or the body is null, or the body's [error] member is
    truthy.  When it throws, the callback writes nothing to the session and
    answers with the generic message; when it does not, it returns the token
    set read off the wire fields [access_token], [refresh_token],
    [token_type], [scope] and [expires_in]. *)
Theorem token_exchange_failure (status : Z) (data : value) :
  fetch env token_url (Some (token_request_body config (q_code q))) =
    Response status (Some data) ->
  (is_throw (exchange env config rt (q_code q)) = true <->
   status <> 200 \/ data = VNull \/ data = VUndefined \/
   truthy (field data "error") = true)
  /\
  (is_throw (exchange env config rt (q_code q)) = true ->
   session (snd (get_callback env config rt q (init_world s db))) = s /\
   filter is_session_write
     (trace (snd (get_callback env config rt q (init_world s db)))) = [] /\
   response_calls (trace (snd (get_callback env config rt q (init_world s db)))) =
     [EvEnd (Some msg_token_error)])
  /\
  (is_throw (exchange env config rt (q_code q)) = false ->
   exchange env config rt (q_code q) =
     Ok (mkTokenSet (field data "access_token") (field data "refresh_token")
           (field data "token_type") (field data "scope") (field data "expires_in"))).
Proof.
  intros Hf. pose proof (exchange_of_response env config rt _ _ _ Hf) as Hx.
  split; [|split].
  - rewrite Hx. destruct (Z.eqb_spec status 200) as [-> | Hne]; cbn [negb].
    + destruct data; cbn;
        try (split; [discriminate | intros [H | [H | [H | H]]]; congruence]);
        try (split; [intros _; auto | reflexivity]).
      destruct (truthy (lookup "error" fields)); cbn;
        (split; [intros H; try discriminate; auto
                | intros [H | [H | [H | H]]]; congruence]).
    + cbn. split; [intros _; now left | reflexivity].
  - intros Ht. rewrite get_callback_passed.
    destruct (exchange env config rt (q_code q)); [discriminate|].
    repeat split; reflexivity.
  - rewrite Hx. destruct (status =? 200); cbn [negb]; [|discriminate].
    destruct data; cbn; try discriminate; try reflexivity.
    destruct (truthy (lookup "error" fields)); cbn; [discriminate | reflexivity].
Qed.

End Callback.

(** C3.  A callback whose query carries a non-empty [error], or whose
    [state] differs from the state kept in the session, never makes the
    token exchange (nor any other request): it answers the generic "uh-oh",
    does not redirect, and leaves the session as it was. *)
Theorem callback_rejected_never_exchanges
    (env : Env) (config : Config) (rt : Builtins)
    (q : Query) (s : Session) (db : list value) :
  (exists e, q_error q = QStr e /\ e <> "") \/
  qval_to_value (q_state q) <> s_redditState s ->
  fst (get_callback env config rt q (init_world s db)) = Ok tt /\
  session (snd (get_callback env config rt q (init_world s db))) = s /\
  filter is_fetch (trace (snd (get_callback env config rt q (init_world s db)))) = [] /\
  response_calls (trace (snd (get_callback env config rt q (init_world s db)))) =
    [EvEnd (Some "uh-oh")].
Proof.
  intros H.
  destruct (get_callback_rejected env config rt q s db) as [args Hrun].
  - destruct H as [[e [He Hne]] | Hs].
    + left. rewrite He. now apply qtruthy_nonempty.
    + right. now apply strict_neq_of_differs.
  - rewrite Hrun. repeat split; reflexivity.
Qed.

(** C9.  A callback with no [error] and no [state] in its query, on a
    session that holds no [redditState], passes the state comparison
    ([undefined !== undefined] is false): after logging the code, the first
    thing it does is the token request, whose form body carries the
    request's code. *)
Theorem callback_absent_state_exchanges
    (env : Env) (config : Config) (rt : Builtins)
    (code : qval) (s : Session) (db : list value) :
  s_redditState s = VUndefined ->
  strict_neq QAbsent (s_redditState s) = false /\
  firstn 2 (trace (snd (get_callback env config rt (mkQuery QAbsent QAbsent code)
                          (init_world s db)))) =
    [EvLogInfo [LVal (qval_to_value code)];
     EvFetch token_url "POST"
       [("Content-Type", "application/x-www-form-urlencoded");
        ("Authorization",
         "Basic " ++ base64 rt (reddit_clientID config ++ ":" ++ reddit_clientSecret config))]
       (Some (formData [("grant_type", "authorization_code");
                        ("redirect_uri", reddit_redirectURI config);
                        ("code", qval_to_string code)]))].
Proof.
  intros Hs.
  assert (Hcmp : strict_neq QAbsent (s_redditState s) = false) by now rewrite Hs.
  split; [exact Hcmp|].
  rewrite get_callback_passed by (cbn [q_error q_state]; auto).
  cbn [q_code].
  destruct (exchange env config rt code) as [tokens|]; [|reflexivity].
  cbv zeta. destruct (profile env rt (accessToken tokens)); reflexivity.
Qed.

(* ===================================================================== *)
(** ** redditAuth.js: [authURI] *)
(* ===================================================================== *)

Lemma append_cancel_l (a b c : string) : (a ++ b = a ++ c -> b = c)%string.
Proof.
  induction a as [|x a IH]; cbn; intros H; [exact H|].
  injection H as H. exact (IH H).
Qed.

Lemma percent_not_unreserved : is_unreserved "%" = false.
Proof. reflexivity. Qed.

Lemma hex_digits_unreserved (c : ascii) :
  is_unreserved (hex_digit (N_of_ascii c / 16)) = true /\
  is_unreserved (hex_digit (N_of_ascii c mod 16)) = true.
Proof.
  destruct c as [[] [] [] [] [] [] [] []]; vm_compute; split; reflexivity.
Qed.

Lemma percent_encode_inj (c1 c2 : ascii) :
  percent_encode c1 = percent_encode c2 -> c1 = c2.
Proof.
  pose (unhex := fun a : ascii =>
                   let n := N_of_ascii a in
                   (if n <? 58 then n - 48 else n - 55)%N).
  assert (Hback : forall c,
             ascii_of_N (unhex (hex_digit (N_of_ascii c / 16)) * 16
                         + unhex (hex_digit (N_of_ascii c mod 16))) = c).
  { intros [[] [] [] [] [] [] [] []]; vm_compute; reflexivity. }
  unfold percent_encode. intros H. injection H as Hhi Hlo.
  rewrite <- (Hback c1), <- (Hback c2), Hhi, Hlo. reflexivity.
Qed.

(** Every character [encodeURIComponent] produces is an unreserved one or
    the percent sign. *)
Lemma encodeURIComponent_chars (s : string) (c : ascii) :
  In c (list_ascii_of_string (encodeURIComponent s)) ->
  is_unreserved c = true \/ c = "%"%char.
Proof.
  induction s as [|x s IH]; cbn [encodeURIComponent]; [intros []|].
  destruct (is_unreserved x) eqn:Hx.
  - cbn. intros [<- | H]; [now left | exact (IH H)].
  - unfold percent_encode. cbn.
    destruct (hex_digits_unreserved x) as [Hhi Hlo].
    intros [<- | [<- | [<- | H]]]; [now right | now left | now left | exact (IH H)].
Qed.

(** Two strings with the same encoding are the same string. *)
Lemma encodeURIComponent_inj (s1 s2 : string) :
  encodeURIComponent s1 = encodeURIComponent s2 -> s1 = s2.
Proof.
  revert s2. induction s1 as [|x s1 IH]; intros [|y s2]; cbn [encodeURIComponent].
  - reflexivity.
  - destruct (is_unreserved y); discriminate.
  - destruct (is_unreserved x); discriminate.
  - destruct (is_unreserved x) eqn:Hx, (is_unreserved y) eqn:Hy;
      unfold percent_encode; cbn [append]; intros H.
    + injection H as -> H. now rewrite (IH _ H).
    + injection H as -> H. rewrite percent_not_unreserved in Hx. discriminate.
    + injection H as <- H. rewrite percent_not_unreserved in Hy. discriminate.
    + injection H as Hhi Hlo H.
      assert (x = y) as ->
        by (apply percent_encode_inj; unfold percent_encode; now rewrite Hhi, Hlo).
      now rewrite (IH _ H).
Qed.

(** C7.  [authURI] is a function of the configuration and the state alone
    (it runs outside the handlers' monad: no call, no session access).  Its
    output is the fixed base URI, with its [client_id], [response_type],
    [redirect_uri], [scope] and [duration] parameters, followed by
    [&state=] and the URI-encoded state.  The encoded state is made of
    unreserved characters and percent signs only, so it holds no [&], [=] or
    [#] that could disturb the other parameters, and it determines the
    state. *)
Theorem authURI_spec (config : Config) (state : string) :
  authURI config state =
    ("https://old.reddit.com/api/v1/authorize"
     ++ "?client_id=" ++ reddit_clientID config
     ++ "&response_type=code"
     ++ "&redirect_uri=" ++ encodeURIComponent (web_host config ++ "/auth/reddit/callback")
     ++ "&scope=identity"
     ++ "&duration=permanent")
    ++ "&state=" ++ encodeURIComponent state
  /\ authURI config state = redditAuthURIBase config ++ "&state=" ++ encodeURIComponent state
  /\ (forall c, In c (list_ascii_of_string (encodeURIComponent state)) ->
      is_unreserved c = true \/ c = "%"%char)
  /\ (forall c, In c (list_ascii_of_string (encodeURIComponent state)) ->
      c <> "&"%char /\ c <> "="%char /\ c <> "#"%char)
  /\ (forall state', authURI config state' = authURI config state -> state' = state).
Proof.
  repeat split; try reflexivity.
  - apply encodeURIComponent_chars.
  - intros ->. destruct (encodeURIComponent_chars _ _ H); discriminate.
  - intros ->. destruct (encodeURIComponent_chars _ _ H); discriminate.
  - intros ->. destruct (encodeURIComponent_chars _ _ H); discriminate.
  - intros state' H. unfold authURI in H.
    apply append_cancel_l, append_cancel_l in H.
    now apply encodeURIComponent_inj.
Qed.

(* ===================================================================== *)
(** ** The theorems at concrete inputs *)
(* ===================================================================== *)

Lemma post_verify_one_identity_missing_witness :
  post_verify Sample.env_ok (init_world Sample.only_discord []) =
    (Ok tt, mkWorld Sample.only_discord []
              [EvWriteHead 401; EvEnd (Some "Not logged in with Reddit")]) /\
  post_verify Sample.env_ok (init_world Sample.only_reddit []) =
    (Ok tt, mkWorld Sample.only_reddit []
              [EvWriteHead 401; EvEnd (Some "Not logged in with Discord")]).
Proof.
  split.
  - apply (proj1 (post_verify_one_identity_missing Sample.env_ok Sample.only_discord []));
      reflexivity.
  - apply (proj2 (post_verify_one_identity_missing Sample.env_ok Sample.only_reddit []));
      reflexivity.
Defined.

Lemma post_verify_no_identity_names_reddit_witness :
  post_verify Sample.env_ok (init_world empty_session []) =
    (Ok tt, mkWorld empty_session []
              [EvWriteHead 401; EvEnd (Some "Not logged in with Reddit")]).
Proof.
  apply (post_verify_no_identity_names_reddit Sample.env_ok empty_session []);
    reflexivity.
Defined.

Lemma post_verify_links_once_witness :
  post_verify Sample.env_ok (init_world Sample.both [Sample.link_42_alice]) =
    (Ok tt, mkWorld Sample.both [Sample.link_42_alice]
              [EvFindOne Sample.link_42_alice; EvWriteHead 201; EvEnd None]) /\
  post_verify Sample.env_ok (init_world Sample.both []) =
    (Ok tt, mkWorld Sample.both [Sample.link_42_alice]
              [EvFindOne Sample.link_42_alice; EvInsertOne Sample.link_42_alice;
               EvWriteHead 201; EvEnd None]).
Proof.
  split.
  - apply (proj1 (post_verify_links_once Sample.env_ok Sample.both [Sample.link_42_alice]
                    eq_refl eq_refl eq_refl)); reflexivity.
  - apply (proj2 (post_verify_links_once Sample.env_ok Sample.both []
                    eq_refl eq_refl eq_refl)); reflexivity.
Defined.

Lemma post_verify_storage_fault_witness :
  sent_status (trace (snd (post_verify Sample.env_lookup_fault
                             (init_world Sample.both [])))) = Some (Some 500) /\
  sent_status (trace (snd (post_verify Sample.env_lookup_fault_strict
                             (init_world Sample.both [])))) = Some (Some 500).
Proof.
  split.
  - exact (proj1 (post_verify_storage_fault Sample.env_lookup_fault Sample.both []
                    eq_refl eq_refl (or_introl eq_refl))).
  - exact (proj1 (post_verify_storage_fault Sample.env_lookup_fault_strict Sample.both []
                    eq_refl eq_refl (or_introl eq_refl))).
Defined.

(** The statuses the handler passes to [writeHead] when the lookup faults. *)
Example post_verify_storage_fault_statuses :
  statuses (trace (snd (post_verify Sample.env_lookup_fault (init_world Sample.both []))))
  = [500; 201].
Proof. reflexivity. Qed.





Lemma token_exchange_failure_witness :
  is_throw (exchange Sample.env_unauthorized Sample.config Sample.rt (QStr "abc")) = true /\
  session (snd (get_callback Sample.env_unauthorized Sample.config Sample.rt
                  Sample.callback_query (init_world Sample.redirected []))) =
    Sample.redirected.
Proof.
  pose proof (token_exchange_failure Sample.env_unauthorized Sample.config Sample.rt
                Sample.callback_query Sample.redirected [] eq_refl eq_refl
                401 (VObj [("message", VStr "Unauthorized")]) eq_refl) as [Hiff [Hfail _]].
  assert (Ht : is_throw (exchange Sample.env_unauthorized Sample.config Sample.rt
                           (q_code Sample.callback_query)) = true).
  { apply Hiff. left. discriminate. }
  split; [exact Ht | exact (proj1 (Hfail Ht))].
Defined.

(** C4 fails as stated in both directions: a 201 answer with a well-formed
    body is a success status without an error field, and the exchange
    throws; a 200 answer whose body has an empty [error] field contains an
    error field, and the exchange returns. *)
Lemma token_exchange_spec_counterexample :
  (is_throw (exchange Sample.env_created Sample.config Sample.rt (QStr "abc")) = true /\
   spec_exchange_fails 201 (Sample.token_body (VNum (Num 3600))) = false) /\
  (is_throw (exchange Sample.env_empty_error Sample.config Sample.rt (QStr "abc")) = false /\
   spec_exchange_fails 200 Sample.body_empty_error = true).
Proof. repeat split; reflexivity. Qed.

Lemma callback_rejected_never_exchanges_witness :
  filter is_fetch
    (trace (snd (get_callback Sample.env_ok Sample.config Sample.rt
                   (mkQuery (QStr "access_denied") (QStr "0.123") QAbsent)
                   (init_world Sample.redirected [])))) = [] /\
  filter is_fetch
    (trace (snd (get_callback Sample.env_ok Sample.config Sample.rt
                   (mkQuery QAbsent (QStr "0.999") (QStr "abc"))
                   (init_world Sample.redirected [])))) = [].
Proof.
  split.
  - apply (callback_rejected_never_exchanges Sample.env_ok Sample.config Sample.rt
             (mkQuery (QStr "access_denied") (QStr "0.123") QAbsent)
             Sample.redirected []).
    left. exists "access_denied". split; [reflexivity | discriminate].
  - apply (callback_rejected_never_exchanges Sample.env_ok Sample.config Sample.rt
             (mkQuery QAbsent (QStr "0.999") (QStr "abc"))
             Sample.redirected []).
    right. discriminate.
Defined.

Lemma callback_absent_state_exchanges_witness :
  firstn 2
    (trace (snd (get_callback Sample.env_ok Sample.config Sample.rt
                   (mkQuery QAbsent QAbsent (QStr "abc"))
                   (init_world empty_session [])))) =
  [EvLogInfo [LVal (VStr "abc")];
   EvFetch "https://www.reddit.com/api/v1/access_token" "POST"
     [("Content-Type", "application/x-www-form-urlencoded");
      ("Authorization", "Basic client:secret")]
     (Some "grant_type=authorization_code&redirect_uri=https%3A%2F%2Fbot.example%2Fauth%2Freddit%2Fcallback&code=abc")].
Proof.
  apply (proj2 (callback_absent_state_exchanges Sample.env_ok Sample.config Sample.rt
                  (QStr "abc") empty_session [] eq_refl)).
Defined.

(** The entry route and the callback together: the state the entry route
    stores is the one its redirect carries, and a callback that echoes it
    passes the comparison. *)
Example entry_then_callback :
  get_entry Sample.env_ok Sample.config (init_world empty_session []) =
    (Ok tt,
     mkWorld Sample.redirected []
       [EvSessionWrite redditState (VStr "0.123");
        EvRedirect (authURI Sample.config "0.123")]) /\
  response_calls
    (trace (snd (get_callback Sample.env_ok Sample.config Sample.rt
                   Sample.callback_query (init_world Sample.redirected [])))) =
    [EvRedirect "/"].
Proof. split; reflexivity. Qed.

Example authURI_sample :
  authURI Sample.config "a b&c=d" =
  "https://old.reddit.com/api/v1/authorize?client_id=client&response_type=code&redirect_uri=https%3A%2F%2Fbot.example%2Fauth%2Freddit%2Fcallback&scope=identity&duration=permanent&state=a%20b%26c%3Dd".
Proof. reflexivity. Qed.

(* ===================================================================== *)
(** ** verification.js: further properties of [POST /] *)
(* ===================================================================== *)

Section PostVerifyPaths.

Variable env : Env.
Variables (s : Session) (db : list value).

Lemma post_verify_no_reddit :
  truthy (s_redditUserInfo s) = false ->
  post_verify env (init_world s db) =
    (Ok tt, mkWorld s db [EvWriteHead 401; EvEnd (Some msg_no_reddit)]).
Proof.
  intros Hr. unfold post_verify; exec. rewrite Hr. exec. reflexivity.
Qed.

Lemma post_verify_no_discord :
  truthy (s_redditUserInfo s) = true ->
  truthy (s_discordUserInfo s) = false ->
  post_verify env (init_world s db) =
    (Ok tt, mkWorld s db [EvWriteHead 401; EvEnd (Some msg_no_discord)]).
Proof.
  intros Hr Hd. unfold post_verify; exec. rewrite Hr. exec. rewrite Hd. exec.
  reflexivity.
Qed.

Hypothesis Hreddit : truthy (s_redditUserInfo s) = true.
Hypothesis Hdiscord : truthy (s_discordUserInfo s) = true.

Ltac enter :=
  unfold post_verify; exec;
  rewrite Hreddit; exec; rewrite Hdiscord; exec;
  rewrite !(prop_truthy _ "id" _ Hdiscord), !(prop_truthy _ "name" _ Hreddit);
  fold (link_record s); exec.

Lemma post_verify_lookup_fault :
  findOne_faults env = true ->
  post_verify env (init_world s db) =
    if strict_headers env
    then (Throw HeadersSent,
          mkWorld s db ([EvFindOne (link_record s)] ++ storage_fault_calls))
    else (Ok tt,
          mkWorld s db ([EvFindOne (link_record s)] ++ storage_fault_calls
                        ++ [EvWriteHead 201; EvEnd None])).
Proof.
  intros Hf. enter. rewrite Hf. exec.
  destruct (strict_headers env); reflexivity.
Qed.

Lemma post_verify_insert_fault :
  findOne_faults env = false ->
  existsb (matches (link_record s)) db = false ->
  insertOne_faults env = true ->
  post_verify env (init_world s db) =
    if strict_headers env
    then (Throw HeadersSent,
          mkWorld s db ([EvFindOne (link_record s); EvInsertOne (link_record s)]
                        ++ storage_fault_calls))
    else (Ok tt,
          mkWorld s db ([EvFindOne (link_record s); EvInsertOne (link_record s)]
                        ++ storage_fault_calls ++ [EvWriteHead 201; EvEnd None])).
Proof.
  intros Hf Hex Hi. pose proof (find_first_missing _ _ Hex) as Hn.
  enter. rewrite Hf. rewrite Hn. cbn [truthy]. exec.
  rewrite !(prop_truthy _ "id" _ Hdiscord), !(prop_truthy _ "name" _ Hreddit).
  fold (link_record s). exec. rewrite Hi. exec.
  destruct (strict_headers env); reflexivity.
Qed.

End PostVerifyPaths.

(** Case analysis over every path of [POST /]. *)
Ltac post_verify_paths env s db :=
  destruct (truthy (s_redditUserInfo s)) eqn:Hr;
    [ destruct (truthy (s_discordUserInfo s)) eqn:Hd;
      [ destruct (findOne_faults env) eqn:Hf;
        [ rewrite (post_verify_lookup_fault env s db Hr Hd Hf);
          destruct (strict_headers env) eqn:Hstrict
        | destruct (existsb (matches (link_record s)) db) eqn:Hex;
          [ rewrite (post_verify_already_linked env s db Hr Hd Hf Hex)
          | destruct (insertOne_faults env) eqn:Hi;
            [ rewrite (post_verify_insert_fault env s db Hr Hd Hf Hex Hi);
              destruct (strict_headers env) eqn:Hstrict
            | rewrite (post_verify_new_link env s db Hr Hd Hf Hex Hi) ] ] ]
      | rewrite (post_verify_no_discord env s db Hr Hd) ]
    | rewrite (post_verify_no_reddit env s db Hr) ].

(** Whatever happens, [POST /] reads the session and never writes it, and
    it makes no request to the provider. *)
Theorem post_verify_leaves_session (env : Env) (s : Session) (db : list value) :
  session (snd (post_verify env (init_world s db))) = s /\
  filter is_session_write (trace (snd (post_verify env (init_world s db)))) = [] /\
  filter is_fetch (trace (snd (post_verify env (init_world s db)))) = [].
Proof.
  post_verify_paths env s db; repeat split; reflexivity.
Qed.

(** Stored records are never altered or removed: after [POST /] the
    collection is the one before, or the one before with the session's link
    record appended, and the latter exactly when both identities are present,
    the lookup answered and found nothing, and the insert did not fault. *)
Theorem post_verify_storage_growth (env : Env) (s : Session) (db : list value) :
  redditAccounts (snd (post_verify env (init_world s db))) =
    if truthy (s_redditUserInfo s) && truthy (s_discordUserInfo s)
       && negb (findOne_faults env)
       && negb (existsb (matches (link_record s)) db)
       && negb (insertOne_faults env)
    then (db ++ [link_record s])%list
    else db.
Proof.
  post_verify_paths env s db; reflexivity.
Qed.

(** With storage in working order [POST /] returns normally and writes one
    status, 401 or 201, followed by one [end]. *)
Theorem post_verify_without_faults (env : Env) (s : Session) (db : list value) :
  findOne_faults env = false ->
  insertOne_faults env = false ->
  fst (post_verify env (init_world s db)) = Ok tt /\
  exists status body,
    response_calls (trace (snd (post_verify env (init_world s db)))) =
      [EvWriteHead status; EvEnd body] /\
    status = (if truthy (s_redditUserInfo s) && truthy (s_discordUserInfo s)
              then 201 else 401).
Proof.
  intros Hf' Hi'.
  post_verify_paths env s db; try congruence;
    (split; [reflexivity | eexists _, _; split; reflexivity]).
Qed.

(** The handler throws only out of the catch block: if it throws, the
    exception is the response object's refusal of a late [writeHead], a
    storage call has faulted, and 500 has been sent. *)
Theorem post_verify_throws_only_after_fault
    (env : Env) (s : Session) (db : list value) (e : exn) :
  fst (post_verify env (init_world s db)) = Throw e ->
  e = HeadersSent /\
  strict_headers env = true /\
  (findOne_faults env = true \/ insertOne_faults env = true) /\
  statuses (trace (snd (post_verify env (init_world s db)))) = [500].
Proof.
  post_verify_paths env s db; cbn [fst]; intros H; try discriminate;
    injection H as <-; repeat split; auto.
Qed.

(** Check-then-insert keeps one record per pair when requests come one
    after another: with storage in working order and both identities
    present, the number of stored records matching the session's pair is
    unchanged if there was one, and one if there was none. *)
Theorem post_verify_one_record_per_pair (env : Env) (s : Session) (db : list value) :
  truthy (s_redditUserInfo s) = true ->
  truthy (s_discordUserInfo s) = true ->
  findOne_faults env = false ->
  insertOne_faults env = false ->
  length (filter (matches (link_record s))
            (redditAccounts (snd (post_verify env (init_world s db))))) =
  Nat.max 1 (length (filter (matches (link_record s)) db)).
Proof.
  intros Hr' Hd' Hf' Hi'.
  destruct (existsb (matches (link_record s)) db) eqn:Hex.
  - rewrite (post_verify_already_linked env s db Hr' Hd' Hf' Hex). cbn [snd redditAccounts].
    apply existsb_exists in Hex. destruct Hex as [d [Hin Hm]].
    assert (Hd1 : In d (filter (matches (link_record s)) db))
      by (apply filter_In; split; assumption).
    destruct (filter (matches (link_record s)) db) as [|x l]; [destruct Hd1|].
    cbn [length]. lia.
  - rewrite (post_verify_new_link env s db Hr' Hd' Hf' Hex Hi'). cbn [snd redditAccounts].
    rewrite filter_app. cbn [filter]. rewrite link_record_matches_itself.
    assert (Hnil : filter (matches (link_record s)) db = []).
    { induction db as [|d l IH]; [reflexivity|].
      cbn in Hex |- *. apply orb_false_iff in Hex. destruct Hex as [Hd0 Hl].
      rewrite Hd0. now apply IH. }
    rewrite Hnil. reflexivity.
Qed.

(* ===================================================================== *)
(** ** redditAuth.js: further properties of [GET /callback] *)
(* ===================================================================== *)

(** Case analysis over every path of the callback. *)
Ltac callback_paths env config rt q s db :=
  destruct (qtruthy (q_error q)) eqn:He;
    [ destruct (get_callback_rejected env config rt q s db (or_introl He)) as [args Hrun];
      rewrite Hrun
    | destruct (strict_neq (q_state q) (s_redditState s)) eqn:Hs;
      [ destruct (get_callback_rejected env config rt q s db (or_intror Hs)) as [args Hrun];
        rewrite Hrun
      | rewrite (get_callback_passed env config rt q s db He Hs); cbv zeta;
        destruct (exchange env config rt (q_code q)) as [tokens|tokenError] eqn:Hx;
        [ destruct (profile env rt (accessToken tokens)) as [userInfo|userInfoError] eqn:Hp
        | ] ] ].

Lemma get_callback_keeps_state
    (env : Env) (config : Config) (rt : Builtins)
    (q : Query) (s : Session) (db : list value) :
  s_redditState (session (snd (get_callback env config rt q (init_world s db)))) =
    s_redditState s /\
  redditAccounts (snd (get_callback env config rt q (init_world s db))) = db.
Proof.
  callback_paths env config rt q s db; split; reflexivity.
Qed.

Lemma get_callback_passed_prefix
    (env : Env) (config : Config) (rt : Builtins)
    (q : Query) (s : Session) (db : list value) :
  qtruthy (q_error q) = false ->
  strict_neq (q_state q) (s_redditState s) = false ->
  firstn 2 (trace (snd (get_callback env config rt q (init_world s db)))) =
    [EvLogInfo [LVal (qval_to_value (q_code q))]; token_fetch_event config rt (q_code q)].
Proof.
  intros He Hs. rewrite get_callback_passed by assumption. cbv zeta.
  destruct (exchange env config rt (q_code q)) as [tokens|]; [|reflexivity].
  destruct (profile env rt (accessToken tokens)); reflexivity.
Qed.

(** The callback never throws and answers every request exactly once, by
    an [end] or a redirect.  It never calls [writeHead]: its error answers go
    out with the response's default status. *)
Theorem callback_answers_once
    (env : Env) (config : Config) (rt : Builtins)
    (q : Query) (s : Session) (db : list value) :
  fst (get_callback env config rt q (init_world s db)) = Ok tt /\
  (exists r,
      response_calls (trace (snd (get_callback env config rt q (init_world s db)))) = [r]
      /\ is_end r = true) /\
  statuses (trace (snd (get_callback env config rt q (init_world s db)))) = [].
Proof.
  callback_paths env config rt q s db;
    (split; [reflexivity | split; [eexists; split; reflexivity | reflexivity]]).
Qed.

(** The callback never calls storage, and writes no session field other
    than the three token fields and the Reddit profile: the stored state and
    the Discord identity are as they were on every path. *)
Theorem callback_touches_only_reddit_fields
    (env : Env) (config : Config) (rt : Builtins)
    (q : Query) (s : Session) (db : list value) :
  redditAccounts (snd (get_callback env config rt q (init_world s db))) = db /\
  filter is_storage_call (trace (snd (get_callback env config rt q (init_world s db)))) = [] /\
  s_redditState (session (snd (get_callback env config rt q (init_world s db)))) =
    s_redditState s /\
  s_discordUserInfo (session (snd (get_callback env config rt q (init_world s db)))) =
    s_discordUserInfo s.
Proof.
  callback_paths env config rt q s db; repeat split; reflexivity.
Qed.

(** The state is not used up: a callback that passed the checks leaves a
    session on which the same query passes them again, so the request can be
    replayed and the exchange is attempted a second time. *)
Theorem callback_state_not_consumed
    (env : Env) (config : Config) (rt : Builtins)
    (q : Query) (s : Session) (db : list value) :
  qtruthy (q_error q) = false ->
  strict_neq (q_state q) (s_redditState s) = false ->
  firstn 2
    (trace (snd (get_callback env config rt q
                   (init_world
                      (session (snd (get_callback env config rt q (init_world s db))))
                      (redditAccounts (snd (get_callback env config rt q (init_world s db))))))))
  = [EvLogInfo [LVal (qval_to_value (q_code q))]; token_fetch_event config rt (q_code q)].
Proof.
  intros He Hs. apply get_callback_passed_prefix; [exact He|].
  rewrite (proj1 (get_callback_keeps_state env config rt q s db)). exact Hs.
Qed.

(** When the exchange and the profile fetch both succeed, the callback
    writes the access token, the refresh token, the expiry and the profile,
    in that order, and then redirects to [/]. *)
Theorem callback_success
    (env : Env) (config : Config) (rt : Builtins)
    (q : Query) (s : Session) (db : list value)
    (tokens : TokenSet) (userInfo : value) :
  qtruthy (q_error q) = false ->
  strict_neq (q_state q) (s_redditState s) = false ->
  exchange env config rt (q_code q) = Ok tokens ->
  profile env rt (accessToken tokens) = Ok userInfo ->
  session (snd (get_callback env config rt q (init_world s db))) =
    mkSession (s_redditState s) (accessToken tokens) (refreshToken tokens)
      (expiry rt (clock env (trace_to_clock config rt (q_code q) tokens)) tokens)
      userInfo (s_discordUserInfo s) /\
  filter is_session_write (trace (snd (get_callback env config rt q (init_world s db)))) =
    [EvSessionWrite redditAccessToken (accessToken tokens);
     EvSessionWrite redditRefreshToken (refreshToken tokens);
     EvSessionWrite redditTokenExpiresAt
       (expiry rt (clock env (trace_to_clock config rt (q_code q) tokens)) tokens);
     EvSessionWrite redditUserInfo userInfo] /\
  response_calls (trace (snd (get_callback env config rt q (init_world s db)))) =
    [EvRedirect "/"].
Proof.
  intros He Hs Hx Hp. rewrite get_callback_passed by assumption.
  rewrite Hx. cbv zeta. rewrite Hp. repeat split; reflexivity.
Qed.

(** An [error] parameter that is present but empty is not an error: with a
    matching state the callback goes on to the exchange. *)
Theorem callback_empty_error_proceeds
    (env : Env) (config : Config) (rt : Builtins)
    (q : Query) (s : Session) (db : list value) (state : string) :
  q_error q = QStr "" ->
  q_state q = QStr state ->
  s_redditState s = VStr state ->
  firstn 2 (trace (snd (get_callback env config rt q (init_world s db)))) =
    [EvLogInfo [LVal (qval_to_value (q_code q))]; token_fetch_event config rt (q_code q)].
Proof.
  intros He Hq Hs. apply get_callback_passed_prefix.
  - rewrite He. reflexivity.
  - rewrite Hq, Hs. cbn. now rewrite String.eqb_refl.
Qed.

(** A repeated [error] or [state] parameter reaches the handler as an
    array: the first is truthy and the second is identical to no stored
    state, so either ends the flow with "uh-oh" before any request. *)
Theorem callback_repeated_parameter_rejected
    (env : Env) (config : Config) (rt : Builtins)
    (q : Query) (s : Session) (db : list value) :
  (exists l, q_error q = QArr l) \/ (exists l, q_state q = QArr l) ->
  response_calls (trace (snd (get_callback env config rt q (init_world s db)))) =
    [EvEnd (Some "uh-oh")] /\
  filter is_fetch (trace (snd (get_callback env config rt q (init_world s db)))) = [].
Proof.
  intros H.
  destruct (get_callback_rejected env config rt q s db) as [args Hrun].
  - destruct H as [[l Hl] | [l Hl]]; rewrite Hl; [left | right]; reflexivity.
  - rewrite Hrun. split; reflexivity.
Qed.

(** When the exchange answers without a usable [expires_in] (missing, or
    so large that the sum leaves the range of time values), the callback
    stores an Invalid Date as the expiry and carries on to the profile
    fetch. *)
Theorem callback_expiry_invalid
    (env : Env) (config : Config) (rt : Builtins)
    (q : Query) (s : Session) (db : list value) (tokens : TokenSet) :
  qtruthy (q_error q) = false ->
  strict_neq (q_state q) (s_redditState s) = false ->
  exchange env config rt (q_code q) = Ok tokens ->
  expiresIn tokens = VUndefined \/
  (exists n, expiresIn tokens = VNum (Num n) /\
             max_time < Z.abs (clock env (trace_to_clock config rt (q_code q) tokens)
                               + n * 1000)) ->
  s_redditTokenExpiresAt
    (session (snd (get_callback env config rt q (init_world s db)))) = VDate NaN /\
  In (me_fetch_event rt (accessToken tokens))
     (trace (snd (get_callback env config rt q (init_world s db)))).
Proof.
  intros He Hs Hx Hbad. rewrite get_callback_passed by assumption.
  rewrite Hx. cbv zeta.
  assert (Hexp : expiry rt (clock env (trace_to_clock config rt (q_code q) tokens)) tokens
                 = VDate NaN).
  { unfold expiry, new_Date. destruct Hbad as [Hu | [n [Hn Hbig]]].
    - rewrite Hu. reflexivity.
    - rewrite Hn. cbn [to_number num_mul num_add time_clip].
      apply Z.leb_gt in Hbig. rewrite Hbig. reflexivity. }
  destruct (profile env rt (accessToken tokens)); cbn; (split; [exact Hexp|]);
    unfold trace_to_clock; cbn; tauto.
Qed.

(** The callback writes the authorization code to the info log, and, once
    the exchange has succeeded, the access token as well. *)
Theorem callback_logs_code_and_token
    (env : Env) (config : Config) (rt : Builtins)
    (q : Query) (s : Session) (db : list value) :
  qtruthy (q_error q) = false ->
  strict_neq (q_state q) (s_redditState s) = false ->
  In (EvLogInfo [LVal (qval_to_value (q_code q))])
     (trace (snd (get_callback env config rt q (init_world s db)))) /\
  forall tokens,
    exchange env config rt (q_code q) = Ok tokens ->
    In (EvLogInfo [LVal (accessToken tokens)])
       (trace (snd (get_callback env config rt q (init_world s db)))).
Proof.
  intros He Hs. rewrite get_callback_passed by assumption.
  destruct (exchange env config rt (q_code q)) as [tokens|] eqn:Hx; cbv zeta.
  - destruct (profile env rt (accessToken tokens)); unfold trace_to_clock;
      (split; [cbn; tauto | intros t Ht; injection Ht as <-; cbn; tauto]).
  - split; [cbn; tauto | intros t Ht; discriminate].
Qed.

(* ===================================================================== *)
(** ** redditAuth.js: the entry route *)
(* ===================================================================== *)

(** The entry route stores the fresh state, replacing any earlier one, and
    redirects to the authorization URI that carries it.  On the session it
    leaves, a callback without [error] goes on to the exchange when it echoes
    that state, and is answered "uh-oh" for any other state string. *)
Theorem entry_round_trip
    (env : Env) (config : Config) (rt : Builtins)
    (s : Session) (db : list value) (q : Query) (state : string) :
  q_error q = QAbsent ->
  q_state q = QStr state ->
  get_entry env config (init_world s db) =
    (Ok tt,
     mkWorld (session_set redditState (VStr (random env)) s) db
       [EvSessionWrite redditState (VStr (random env));
        EvRedirect (authURI config (random env))]) /\
  (state = random env ->
   firstn 2
     (trace (snd (get_callback env config rt q
                    (init_world (session (snd (get_entry env config (init_world s db)))) db))))
   = [EvLogInfo [LVal (qval_to_value (q_code q))]; token_fetch_event config rt (q_code q)]) /\
  (state <> random env ->
   response_calls
     (trace (snd (get_callback env config rt q
                    (init_world (session (snd (get_entry env config (init_world s db)))) db))))
   = [EvEnd (Some "uh-oh")]).
Proof.
  intros He Hq. split; [reflexivity|]. split.
  - intros ->. apply get_callback_passed_prefix.
    + now rewrite He.
    + rewrite Hq. cbn. now rewrite String.eqb_refl.
  - intros Hne.
    destruct (get_callback_rejected env config rt q
                (session (snd (get_entry env config (init_world s db)))) db)
      as [args Hrun].
    + right. rewrite Hq. cbn. now apply negb_true_iff, String.eqb_neq.
    + rewrite Hrun. reflexivity.
Qed.

(* ===================================================================== *)
(** ** redditAuth.js: further properties of the provider calls *)
(* ===================================================================== *)

(** [fetchRedditTokens] touches neither session nor storage: whether it
    returns or throws, all it adds to the world is its one POST to the token
    endpoint, with the Basic credentials and the form body for the code; and
    what it returns does not depend on the world it runs in. *)
Theorem fetchRedditTokens_isolated
    (env : Env) (config : Config) (rt : Builtins) (code : qval) (w w' : world) :
  session (snd (fetchRedditTokens env config rt code w)) = session w /\
  redditAccounts (snd (fetchRedditTokens env config rt code w)) = redditAccounts w /\
  trace (snd (fetchRedditTokens env config rt code w)) =
    app (trace w)
      [EvFetch "https://www.reddit.com/api/v1/access_token" "POST"
         [("Content-Type", "application/x-www-form-urlencoded");
          ("Authorization",
           "Basic " ++ base64 rt (reddit_clientID config ++ ":" ++ reddit_clientSecret config))]
         (Some (token_request_body config code))] /\
  fst (fetchRedditTokens env config rt code w) =
    fst (fetchRedditTokens env config rt code w').
Proof.
  rewrite !fetchRedditTokens_run. repeat split; reflexivity.
Qed.

(** [fetchRedditUserInfo] touches neither session nor storage: it writes
    the access token to the info log, makes its one GET to the profile
    endpoint with the token as bearer credential, and nothing else. *)
Theorem fetchRedditUserInfo_isolated
    (env : Env) (rt : Builtins) (accessToken : value) (w w' : world) :
  session (snd (fetchRedditUserInfo env rt accessToken w)) = session w /\
  redditAccounts (snd (fetchRedditUserInfo env rt accessToken w)) = redditAccounts w /\
  trace (snd (fetchRedditUserInfo env rt accessToken w)) =
    app (trace w)
      [EvLogInfo [LVal accessToken];
       EvFetch "https://oauth.reddit.com/api/v1/me" "GET"
         [("Authorization", "bearer " ++ to_string rt accessToken)] None] /\
  fst (fetchRedditUserInfo env rt accessToken w) =
    fst (fetchRedditUserInfo env rt accessToken w').
Proof.
  rewrite !fetchRedditUserInfo_run. repeat split; reflexivity.
Qed.

Lemma exchange_of_fetch (env : Env) (config : Config) (rt : Builtins) (code : qval) :
  exchange env config rt code =
  match fetch env token_url (Some (token_request_body config code)) with
  | NetworkError => Throw FetchFailed
  | Response status body =>
      if negb (status =? 200) then Throw (TokenStatusError status)
      else match body with
           | None => Throw InvalidJSON
           | Some data =>
               match get_prop data "error" with
               | None => Throw (TypeError "error")
               | Some error =>
                   if truthy error then Throw (TokenProviderError error)
                   else Ok (mkTokenSet (field data "access_token")
                              (field data "refresh_token") (field data "token_type")
                              (field data "scope") (field data "expires_in"))
               end
           end
  end.
Proof.
  destruct (fetch env token_url (Some (token_request_body config code)))
    as [|status [data|]] eqn:Hf.
  - unfold exchange, outcome, fetchRedditTokens, fetch_. exec. rewrite Hf. reflexivity.
  - exact (exchange_of_response env config rt code status data Hf).
  - unfold exchange, outcome, fetchRedditTokens, fetch_. exec. rewrite Hf. exec.
    destruct (status =? 200); reflexivity.
Qed.

Lemma profile_of_fetch (env : Env) (rt : Builtins) (accessToken : value) :
  profile env rt accessToken =
  match fetch env me_url None with
  | NetworkError => Throw FetchFailed
  | Response status body =>
      if negb (status =? 200) then Throw (UserInfoStatusError status)
      else match body with
           | None => Throw InvalidJSON
           | Some data =>
               match get_prop data "name" with
               | None => Throw (TypeError "name")
               | Some name =>
                   Ok (VObj [("name", name);
                             ("avatarURL",
                              if truthy (field data "subreddit")
                              then field (field data "subreddit") "icon_img"
                              else field data "subreddit");
                             ("accountAge",
                              new_Date (num_mul (to_number rt (field data "created_utc"))
                                          (Num 1000)))])
               end
           end
  end.
Proof.
  unfold profile, outcome, fetchRedditUserInfo, fetch_. exec.
  destruct (fetch env me_url None) as [|status [data|]]; exec; try reflexivity.
  - destruct (status =? 200); exec; try reflexivity.
    destruct data; cbn; try reflexivity.
    destruct (truthy (lookup "subreddit" fields)) eqn:Ht; [|reflexivity].
    rewrite !(prop_truthy _ "icon_img" _ Ht). reflexivity.
  - destruct (status =? 200); reflexivity.
Qed.

(** When the token endpoint cannot be reached, or its answer is not JSON,
    the exchange throws: for the network, for the status when it is not 200
    (the status is tested before the body is read), for the body otherwise.
    A callback that passed its checks then answers the generic message,
    makes no further request and leaves the session as it was. *)
Theorem exchange_transport_failure
    (env : Env) (config : Config) (rt : Builtins)
    (q : Query) (s : Session) (db : list value) :
  qtruthy (q_error q) = false ->
  strict_neq (q_state q) (s_redditState s) = false ->
  (fetch env token_url (Some (token_request_body config (q_code q))) = NetworkError \/
   exists status,
     fetch env token_url (Some (token_request_body config (q_code q))) =
       Response status None) ->
  (exists e,
      exchange env config rt (q_code q) = Throw e /\
      match fetch env token_url (Some (token_request_body config (q_code q))) with
      | NetworkError => e = FetchFailed
      | Response status _ =>
          e = if status =? 200 then InvalidJSON else TokenStatusError status
      end) /\
  session (snd (get_callback env config rt q (init_world s db))) = s /\
  filter is_fetch (trace (snd (get_callback env config rt q (init_world s db)))) =
    [token_fetch_event config rt (q_code q)] /\
  response_calls (trace (snd (get_callback env config rt q (init_world s db)))) =
    [EvEnd (Some msg_token_error)].
Proof.
  intros He Hs Hf. rewrite get_callback_passed by assumption.
  rewrite exchange_of_fetch.
  destruct Hf as [Hf | [status Hf]]; rewrite Hf.
  - split; [eexists; split; reflexivity | repeat split; reflexivity].
  - destruct (status =? 200); cbn [negb];
      (split; [eexists; split; reflexivity | repeat split; reflexivity]).
Qed.

(** The profile fetch throws exactly when the endpoint cannot be reached,
    answers with a status other than 200, or answers with a body that is
    not JSON or is null.  It does not look at an [error] member. *)
Theorem profile_failure_iff (env : Env) (rt : Builtins) (accessToken : value) :
  is_throw (profile env rt accessToken) = true <->
  match fetch env me_url None with
  | NetworkError => True
  | Response status body =>
      status <> 200 \/ body = None \/ body = Some VNull \/ body = Some VUndefined
  end.
Proof.
  rewrite profile_of_fetch.
  destruct (fetch env me_url None) as [|status [data|]].
  - cbn. tauto.
  - destruct (Z.eqb_spec status 200) as [-> | Hne]; cbn [negb].
    + destruct data; cbn;
        (split; [intros H; try discriminate; auto
                | intros [H | [H | [H | H]]]; congruence]).
    + cbn. split; [intros _; now left | reflexivity].
  - destruct (Z.eqb_spec status 200) as [-> | Hne]; cbn [negb]; cbn.
    + split; [intros _; right; now left | reflexivity].
    + split; [intros _; now left | reflexivity].
Qed.

Lemma lookup_missing (k : string) (fields : list (string * value)) :
  has_key k fields = false -> lookup k fields = VUndefined.
Proof.
  induction fields as [|[k' v] l IH]; cbn; [reflexivity|].
  destruct (k =? k')%string; cbn; [discriminate | exact IH].
Qed.

(** A 200 answer with an object body always gives a profile, whatever the
    object holds: a missing member is undefined in the profile, a falsy
    [subreddit] (missing, null) is passed on as the avatar instead of being
    read, and [created_utc] in seconds becomes the Date of that many
    thousand milliseconds (an Invalid Date when it is missing). *)
Theorem profile_of_object_body
    (env : Env) (rt : Builtins) (accessToken : value) (fields : list (string * value)) :
  fetch env me_url None = Response 200 (Some (VObj fields)) ->
  profile env rt accessToken =
    Ok (VObj [("name", lookup "name" fields);
              ("avatarURL",
               if truthy (lookup "subreddit" fields)
               then field (lookup "subreddit" fields) "icon_img"
               else lookup "subreddit" fields);
              ("accountAge",
               new_Date (num_mul (to_number rt (lookup "created_utc" fields)) (Num 1000)))])
  /\ (has_key "subreddit" fields = false ->
      exists name age,
        profile env rt accessToken =
          Ok (VObj [("name", name); ("avatarURL", VUndefined); ("accountAge", age)]))
  /\ (forall n, lookup "created_utc" fields = VNum (Num n) ->
      Z.abs (n * 1000) <= max_time ->
      exists name avatar,
        profile env rt accessToken =
          Ok (VObj [("name", name); ("avatarURL", avatar);
                    ("accountAge", VDate (Num (n * 1000)))]))
  /\ (has_key "created_utc" fields = false ->
      exists name avatar,
        profile env rt accessToken =
          Ok (VObj [("name", name); ("avatarURL", avatar); ("accountAge", VDate NaN)])).
Proof.
  intros Hf. pose proof (fun k => lookup_missing k fields) as Hmiss.
  rewrite profile_of_fetch, Hf. cbn [negb Z.eqb Pos.eqb get_prop field].
  split; [reflexivity|]. split; [|split].
  - intros Hk. rewrite (Hmiss _ Hk). cbn [truthy]. eexists _, _. reflexivity.
  - intros n Hn Hrange. rewrite Hn. cbn [to_number num_mul].
    unfold new_Date, time_clip.
    apply Z.leb_le in Hrange. rewrite Hrange. eexists _, _. reflexivity.
  - intros Hk. rewrite (Hmiss _ Hk). eexists _, _. reflexivity.
Qed.

(* ===================================================================== *)
(** ** The two files together *)
(* ===================================================================== *)

(** From callback to link: after a callback whose exchange succeeded and
    whose profile answer was a 200 with an object body, a [POST /] from the
    resulting session, with a Discord identity and storage in working order,
    gets past the Reddit check and records the pair made of the Discord id
    and the [name] member of the provider's profile answer. *)
Theorem callback_then_post_verify
    (env : Env) (config : Config) (rt : Builtins)
    (q : Query) (s : Session) (db : list value)
    (tokens : TokenSet) (fields : list (string * value)) :
  qtruthy (q_error q) = false ->
  strict_neq (q_state q) (s_redditState s) = false ->
  exchange env config rt (q_code q) = Ok tokens ->
  fetch env me_url None = Response 200 (Some (VObj fields)) ->
  truthy (s_discordUserInfo s) = true ->
  findOne_faults env = false ->
  insertOne_faults env = false ->
  existsb (matches (VObj [("userID", field (s_discordUserInfo s) "id");
                          ("redditName", lookup "name" fields)])) db = false ->
  post_verify env
    (init_world (session (snd (get_callback env config rt q (init_world s db)))) db) =
  (Ok tt,
   mkWorld (session (snd (get_callback env config rt q (init_world s db))))
     (db ++ [VObj [("userID", field (s_discordUserInfo s) "id");
                   ("redditName", lookup "name" fields)]])
     [EvFindOne (VObj [("userID", field (s_discordUserInfo s) "id");
                       ("redditName", lookup "name" fields)]);
      EvInsertOne (VObj [("userID", field (s_discordUserInfo s) "id");
                         ("redditName", lookup "name" fields)]);
      EvWriteHead 201; EvEnd None]).
Proof.
  intros He Hs Hx Hme Hd Hff Hif Hex.
  rewrite get_callback_passed by assumption. rewrite Hx. cbv zeta.
  rewrite profile_of_fetch, Hme. cbn [negb Z.eqb Pos.eqb get_prop snd session].
  match goal with
  | |- post_verify env (init_world ?s' db) = _ =>
      assert (Hlink : link_record s' =
                      VObj [("userID", field (s_discordUserInfo s) "id");
                            ("redditName", lookup "name" fields)]) by reflexivity;
      rewrite (post_verify_new_link env s' db eq_refl Hd Hff
                 ltac:(rewrite Hlink; exact Hex) Hif);
      rewrite Hlink
  end.
  reflexivity.
Qed.

Lemma post_verify_turned_away (env : Env) (s : Session) (db : list value) :
  hd_error (statuses (trace (snd (post_verify env (init_world s db))))) = Some 401 <->
  truthy (s_redditUserInfo s) && truthy (s_discordUserInfo s) = false.
Proof.
  post_verify_paths env s db; cbn; split; intros H; try reflexivity; discriminate.
Qed.

(** The page and the endpoint agree: [GET /] only ends the response with
    the page, touching neither session nor storage, and the page offers the
    link button exactly when a [POST /] from the same session is not turned
    away with 401. *)
Theorem verify_page_offers_link_iff_post_accepts
    (env : Env) (rt : Builtins) (s : Session) (db : list value) :
  get_verify rt (init_world s db) =
    (Ok tt,
     mkWorld s db
       [EvEnd (Some (page_head
                     ++ discord_account rt (s_discordUserInfo s)
                     ++ page_between_accounts
                     ++ reddit_account rt (s_redditUserInfo s)
                     ++ page_before_action
                     ++ link_action (s_redditUserInfo s) (s_discordUserInfo s)
                     ++ page_tail))]) /\
  (link_action (s_redditUserInfo s) (s_discordUserInfo s) = link_button <->
   hd_error (statuses (trace (snd (post_verify env (init_world s db))))) <> Some 401) /\
  (link_action (s_redditUserInfo s) (s_discordUserInfo s) = link_hint <->
   hd_error (statuses (trace (snd (post_verify env (init_world s db))))) = Some 401).
Proof.
  split; [reflexivity|].
  assert (Hdiff : link_button <> link_hint) by discriminate.
  pose proof (post_verify_turned_away env s db) as Hpost.
  unfold link_action, js_and.
  destruct (truthy (s_discordUserInfo s)) eqn:Hd;
    [destruct (truthy (s_redditUserInfo s)) eqn:Hr | rewrite Hd];
    cbn [andb] in Hpost; split; split; intros H;
    try reflexivity; try congruence;
    try (apply Hpost; rewrite ?andb_false_r; reflexivity);
    try (intros H'; apply Hpost in H'; discriminate);
    try (exfalso; apply H; apply Hpost; rewrite ?andb_false_r; reflexivity);
    try (apply Hpost in H; discriminate).
Qed.

(* ===================================================================== *)
(** ** redditAuth.js: [formData] *)
(* ===================================================================== *)

Lemma count_char_app (c : ascii) (a b : string) :
  count_char c (a ++ b) = (count_char c a + count_char c b)%nat.
Proof.
  induction a as [|x a IH]; cbn; [reflexivity|]. rewrite IH. lia.
Qed.

Lemma count_char_absent (c : ascii) (s : string) :
  (forall x, In x (list_ascii_of_string s) -> x <> c) -> count_char c s = 0%nat.
Proof.
  induction s as [|x s IH]; cbn; intros H; [reflexivity|].
  destruct (Ascii.eqb_spec x c) as [-> | _].
  - exfalso. apply (H c); [now left | reflexivity].
  - apply IH. intros y Hy. apply H. now right.
Qed.

(** An encoded string holds neither of the two separators. *)
Lemma count_char_encoded (s : string) :
  count_char "&" (encodeURIComponent s) = 0%nat /\
  count_char "=" (encodeURIComponent s) = 0%nat.
Proof.
  split; apply count_char_absent; intros x Hx ->;
    destruct (encodeURIComponent_chars _ _ Hx); discriminate.
Qed.

Lemma split_at_char (c : ascii) (a a' b b' : string) :
  count_char c a = 0%nat -> count_char c a' = 0%nat ->
  (a ++ String c b = a' ++ String c b')%string -> a = a' /\ b = b'.
Proof.
  revert a'. induction a as [|x a IH]; intros [|y a']; cbn; intros Ha Ha' H.
  - injection H as H. now split.
  - injection H as <- _. rewrite Ascii.eqb_refl in Ha'. discriminate.
  - injection H as -> _. rewrite Ascii.eqb_refl in Ha. discriminate.
  - injection H as -> H.
    destruct (Ascii.eqb y c); [discriminate|].
    destruct (IH a' Ha Ha' H) as [-> ->]. now split.
Qed.

Lemma form_entry_inj (k v k' v' : string) :
  (encodeURIComponent k ++ "=" ++ encodeURIComponent v =
   encodeURIComponent k' ++ "=" ++ encodeURIComponent v')%string ->
  k = k' /\ v = v'.
Proof.
  intros H. apply split_at_char in H; try apply count_char_encoded.
  destruct H as [Hk Hv]. split; now apply encodeURIComponent_inj.
Qed.

Lemma form_entry_counts (k v : string) :
  count_char "&" (encodeURIComponent k ++ "=" ++ encodeURIComponent v) = 0%nat /\
  count_char "=" (encodeURIComponent k ++ "=" ++ encodeURIComponent v) = 1%nat.
Proof.
  rewrite !count_char_app.
  destruct (count_char_encoded k) as [-> ->], (count_char_encoded v) as [-> ->].
  split; reflexivity.
Qed.

Lemma formData_cons (kv kv' : string * string) (l : list (string * string)) :
  formData (kv :: kv' :: l) =
  ((encodeURIComponent (fst kv) ++ "=" ++ encodeURIComponent (snd kv))
   ++ "&" ++ formData (kv' :: l))%string.
Proof. reflexivity. Qed.

Lemma formData_count (content : list (string * string)) :
  count_char "=" (formData content) = length content /\
  count_char "&" (formData content) = pred (length content).
Proof.
  induction content as [|kv [|kv' l] IH].
  - split; reflexivity.
  - destruct (form_entry_counts (fst kv) (snd kv)) as [Ha He].
    cbn [formData map String.concat length pred]. split; assumption.
  - rewrite formData_cons.
    rewrite !(count_char_app _ (encodeURIComponent (fst kv) ++ "="
                                ++ encodeURIComponent (snd kv))).
    destruct (form_entry_counts (fst kv) (snd kv)) as [-> ->].
    cbn [append count_char]. destruct IH as [-> ->]. cbn. split; lia.
Qed.

(** A form body has one [=] per entry and one [&] between entries, whatever
    the keys and values hold: a value cannot add or alter a field. *)
Theorem formData_separators (content : list (string * string)) :
  count_char "=" (formData content) = length content /\
  count_char "&" (formData content) = (length content - 1)%nat.
Proof.
  destruct (formData_count content) as [He Ha]. split; [exact He | lia].
Qed.

(** The form body determines the entries: two contents with the same body
    are the same list of keys and values. *)
Theorem formData_inj (c1 c2 : list (string * string)) :
  formData c1 = formData c2 -> c1 = c2.
Proof.
  revert c2. induction c1 as [|kv1 [|kv1' l1] IH]; intros c2 H;
    pose proof (f_equal (count_char "=") H) as Hlen;
    rewrite (proj1 (formData_count _)), (proj1 (formData_count c2)) in Hlen.
  - destruct c2; [reflexivity | discriminate].
  - destruct c2 as [|kv2 [|kv2' l2]]; try discriminate.
    cbn [formData map String.concat] in H.
    destruct kv1, kv2. apply form_entry_inj in H. cbn in H. destruct H as [-> ->].
    reflexivity.
  - destruct c2 as [|kv2 [|kv2' l2]]; try discriminate.
    rewrite !formData_cons in H.
    apply split_at_char in H; try apply form_entry_counts.
    destruct H as [Hhead Htail].
    destruct kv1, kv2. apply form_entry_inj in Hhead. cbn in Hhead.
    destruct Hhead as [-> ->]. f_equal. now apply IH.
Qed.

(** The token request has the three fields [grant_type], [redirect_uri] and
    [code] and two separators, whatever the code holds.  Its [redirect_uri]
    comes from [config.reddit.redirectURI], not from the URI [authURI] sent:
    the two agree exactly when the configured value is the host followed by
    [/auth/reddit/callback]. *)
Theorem token_request_body_fields (config : Config) (code : qval) :
  token_request_body config code =
    ("grant_type=authorization_code"
     ++ "&redirect_uri=" ++ encodeURIComponent (reddit_redirectURI config)
     ++ "&code=" ++ encodeURIComponent (qval_to_string code))%string /\
  count_char "&" (token_request_body config code) = 2%nat /\
  (encodeURIComponent (reddit_redirectURI config) =
     encodeURIComponent (redditRedirectURI config) <->
   reddit_redirectURI config = (web_host config ++ "/auth/reddit/callback")%string).
Proof.
  split; [reflexivity|]. split.
  - unfold token_request_body. rewrite (proj2 (formData_count _)). reflexivity.
  - unfold redditRedirectURI. split.
    + apply encodeURIComponent_inj.
    + intros ->. reflexivity.
Qed.

(* ===================================================================== *)
(** ** The further properties at concrete inputs *)
(* ===================================================================== *)

Lemma post_verify_without_faults_witness :
  fst (post_verify Sample.env_ok (init_world Sample.only_reddit [])) = Ok tt.
Proof.
  exact (proj1 (post_verify_without_faults Sample.env_ok Sample.only_reddit []
                  eq_refl eq_refl)).
Defined.

Lemma post_verify_throws_only_after_fault_witness :
  statuses (trace (snd (post_verify Sample.env_lookup_fault_strict
                          (init_world Sample.both [])))) = [500].
Proof.
  exact (proj2 (proj2 (proj2
    (post_verify_throws_only_after_fault Sample.env_lookup_fault_strict Sample.both []
       HeadersSent eq_refl)))).
Defined.

Lemma post_verify_one_record_per_pair_witness :
  length (filter (matches (link_record Sample.both))
            (redditAccounts (snd (post_verify Sample.env_ok
                                    (init_world Sample.both
                                       [Sample.link_42_alice; Sample.link_42_alice])))))
  = Nat.max 1 2.
Proof.
  exact (post_verify_one_record_per_pair Sample.env_ok Sample.both
           [Sample.link_42_alice; Sample.link_42_alice] eq_refl eq_refl eq_refl eq_refl).
Defined.

Lemma callback_state_not_consumed_witness :
  firstn 2
    (trace (snd (get_callback Sample.env_ok Sample.config Sample.rt Sample.callback_query
                   (init_world
                      (session (snd (get_callback Sample.env_ok Sample.config Sample.rt
                                       Sample.callback_query
                                       (init_world Sample.redirected []))))
                      (redditAccounts (snd (get_callback Sample.env_ok Sample.config
                                              Sample.rt Sample.callback_query
                                              (init_world Sample.redirected []))))))))
  = [EvLogInfo [LVal (VStr "abc")];
     token_fetch_event Sample.config Sample.rt (QStr "abc")].
Proof.
  exact (callback_state_not_consumed Sample.env_ok Sample.config Sample.rt
           Sample.callback_query Sample.redirected [] eq_refl eq_refl).
Defined.

Lemma callback_success_witness :
  response_calls
    (trace (snd (get_callback Sample.env_ok Sample.config Sample.rt Sample.callback_query
                   (init_world Sample.redirected [])))) = [EvRedirect "/"].
Proof.
  exact (proj2 (proj2
    (callback_success Sample.env_ok Sample.config Sample.rt Sample.callback_query
       Sample.redirected [] Sample.tokens_3600
       (VObj [("name", VStr "alice"); ("avatarURL", VUndefined);
              ("accountAge", VDate (Num 1500000000000))])
       eq_refl eq_refl eq_refl eq_refl))).
Defined.

Lemma callback_empty_error_proceeds_witness :
  firstn 2
    (trace (snd (get_callback Sample.env_ok Sample.config Sample.rt
                   (mkQuery (QStr "") (QStr "0.123") (QStr "abc"))
                   (init_world Sample.redirected []))))
  = [EvLogInfo [LVal (VStr "abc")];
     token_fetch_event Sample.config Sample.rt (QStr "abc")].
Proof.
  exact (callback_empty_error_proceeds Sample.env_ok Sample.config Sample.rt
           (mkQuery (QStr "") (QStr "0.123") (QStr "abc")) Sample.redirected []
           "0.123" eq_refl eq_refl eq_refl).
Defined.

Lemma callback_repeated_parameter_rejected_witness :
  response_calls
    (trace (snd (get_callback Sample.env_ok Sample.config Sample.rt
                   (mkQuery QAbsent (QArr ["0.123"; "0.123"]) (QStr "abc"))
                   (init_world Sample.redirected [])))) = [EvEnd (Some "uh-oh")].
Proof.
  apply (callback_repeated_parameter_rejected Sample.env_ok Sample.config Sample.rt
           (mkQuery QAbsent (QArr ["0.123"; "0.123"]) (QStr "abc")) Sample.redirected []).
  right. exists ["0.123"; "0.123"]. reflexivity.
Defined.

Lemma callback_expiry_invalid_witness :
  s_redditTokenExpiresAt
    (session (snd (get_callback Sample.env_no_expiry Sample.config Sample.rt
                     Sample.callback_query (init_world Sample.redirected [])))) = VDate NaN.
Proof.
  exact (proj1
    (callback_expiry_invalid Sample.env_no_expiry Sample.config Sample.rt
       Sample.callback_query Sample.redirected [] Sample.tokens_no_expiry
       eq_refl eq_refl eq_refl (or_introl eq_refl))).
Defined.

Lemma callback_logs_code_and_token_witness :
  In (EvLogInfo [LVal (VStr "at")])
     (trace (snd (get_callback Sample.env_ok Sample.config Sample.rt Sample.callback_query
                    (init_world Sample.redirected [])))).
Proof.
  exact (proj2
    (callback_logs_code_and_token Sample.env_ok Sample.config Sample.rt
       Sample.callback_query Sample.redirected [] eq_refl eq_refl)
    Sample.tokens_3600 eq_refl).
Defined.

Lemma entry_round_trip_witness :
  response_calls
    (trace (snd (get_callback Sample.env_ok Sample.config Sample.rt
                   (mkQuery QAbsent (QStr "0.5") (QStr "abc"))
                   (init_world
                      (session (snd (get_entry Sample.env_ok Sample.config
                                       (init_world Sample.both []))))
                      []))))
  = [EvEnd (Some "uh-oh")].
Proof.
  apply (entry_round_trip Sample.env_ok Sample.config Sample.rt Sample.both []
           (mkQuery QAbsent (QStr "0.5") (QStr "abc")) "0.5" eq_refl eq_refl).
  discriminate.
Defined.

Lemma exchange_transport_failure_witness :
  session (snd (get_callback Sample.env_offline Sample.config Sample.rt
                  Sample.callback_query (init_world Sample.redirected []))) =
  Sample.redirected.
Proof.
  exact (proj1 (proj2
    (exchange_transport_failure Sample.env_offline Sample.config Sample.rt
       Sample.callback_query Sample.redirected [] eq_refl eq_refl (or_introl eq_refl)))).
Defined.

Lemma profile_of_object_body_witness :
  profile Sample.env_ok Sample.rt (VStr "at") =
  Ok (VObj [("name", VStr "alice"); ("avatarURL", VUndefined);
            ("accountAge", VDate (Num 1500000000000))]).
Proof.
  exact (proj1
    (profile_of_object_body Sample.env_ok Sample.rt (VStr "at")
       [("name", VStr "alice"); ("created_utc", VNum (Num 1500000000))] eq_refl)).
Defined.

Lemma callback_then_post_verify_witness :
  redditAccounts
    (snd (post_verify Sample.env_ok
            (init_world
               (session (snd (get_callback Sample.env_ok Sample.config Sample.rt
                                Sample.callback_query
                                (init_world Sample.redirected_with_discord []))))
               []))) = [Sample.link_42_alice].
Proof.
  exact (f_equal (fun r => redditAccounts (snd r))
    (callback_then_post_verify Sample.env_ok Sample.config Sample.rt
       Sample.callback_query Sample.redirected_with_discord [] Sample.tokens_3600
       [("name", VStr "alice"); ("created_utc", VNum (Num 1500000000))]
       eq_refl eq_refl eq_refl eq_refl eq_refl eq_refl eq_refl eq_refl)).
Defined.

Lemma formData_inj_witness :
  [("code", "a&b=c")] = [("code", "a&b=c")].
Proof.
  exact (formData_inj [("code", "a&b=c")] [("code", "a&b=c")] eq_refl).
Defined.
